(** * EduSense backend (Backend/server.js): a shallow embedding

    The Express server of the repository is modelled as pure functions over
    an explicit world (file system, cached runtime command, trace of spawned
    processes, clock).  A handler is a computation in the monad [M]: it reads
    and writes the world and either returns a response or throws.  The stack
    of routes is walked by [dispatch] the way Express walks it; [serve] is
    the server answering one request.

    What the server does not own is a parameter: the operating system that
    runs a spawned command ([os_run]), [JSON.parse], and the LLM service
    behind [fetch].  The splitting script extract_instructor_data.py is not
    among the sources; where a statement needs it, it is [splitter], written
    from the specification.

    Conventions.  A JavaScript string is the list of its code units, here
    8-bit ([list ascii]); numbers are the integers among the JavaScript
    numbers; paths follow the POSIX flavour of Node's [path]; a file system
    is the list of the paths of its regular files together with the list of
    the paths of its directories. *)

From Stdlib Require Import String Ascii.
From Stdlib Require Import List Bool Arith ZArith Lia.
From Stdlib Require Import Permutation Sorting.Sorted.
From Stdlib Require Import Numbers.DecimalString.
Import ListNotations.

Set Implicit Arguments.
Set Warnings "-register-all".
Set Warnings "-automation".


(** ** JavaScript strings *)

Module JsString.

(** A string is the list of its code units. *)
Definition jstring := list ascii.

(** A string literal of the source. *)
Definition str (s : string) : jstring := list_ascii_of_string s.

Definition ascii_eqb (a b : ascii) : bool := Ascii.eqb a b.

Fixpoint eqb (s t : jstring) : bool :=
  match s, t with
  | [], [] => true
  | a :: s', b :: t' => ascii_eqb a b && eqb s' t'
  | _, _ => false
  end.

(** [s.startsWith(p)] *)
Fixpoint startsWith (p s : jstring) : bool :=
  match p, s with
  | [], _ => true
  | a :: p', b :: s' => ascii_eqb a b && startsWith p' s'
  | _ :: _, [] => false
  end.

(** [s.endsWith(suf)]: the last [suf.length] code units of [s] are [suf]. *)
Definition endsWith (suf s : jstring) : bool :=
  (length suf <=? length s) && eqb (skipn (length s - length suf) s) suf.

(** [s.includes(p)] *)
Fixpoint includes (p s : jstring) : bool :=
  startsWith p s ||
  match s with
  | [] => false
  | _ :: s' => includes p s'
  end.

(** [s.replace(pat, rep)] with a string pattern: only the first occurrence
    of [pat] is replaced. *)
Fixpoint replace_first (pat rep s : jstring) : jstring :=
  if startsWith pat s then rep ++ skipn (length pat) s
  else match s with
       | [] => []
       | c :: s' => c :: replace_first pat rep s'
       end.

(** [s.replace(/c/g, d)] for a one-character pattern. *)
Definition replace_all_char (c d : ascii) (s : jstring) : jstring :=
  map (fun x => if ascii_eqb x c then d else x) s.

(** White space as matched by [\s] (the one-byte members of the class). *)
Definition is_space (c : ascii) : bool :=
  let n := nat_of_ascii c in
  (n =? 32) || ((9 <=? n) && (n <=? 13)) || (n =? 160).

(** [s.replace(/\s+/g, rep)]: every maximal run of white space becomes
    one copy of [rep]. *)
Fixpoint replace_space_runs (rep s : jstring) : jstring :=
  match s with
  | [] => []
  | c :: s' =>
      if is_space c then
        match s' with
        | d :: _ => if is_space d then replace_space_runs rep s'
                    else rep ++ replace_space_runs rep s'
        | [] => rep
        end
      else c :: replace_space_runs rep s'
  end.

(** [s.toLowerCase()] on the one-byte code units: A-Z, and the capital
    letters of Latin-1 (the multiplication sign between them stays). *)
Definition lower_char (c : ascii) : ascii :=
  let n := nat_of_ascii c in
  if ((65 <=? n) && (n <=? 90))
     || ((192 <=? n) && (n <=? 222) && negb (n =? 215))
  then ascii_of_nat (n + 32) else c.

Definition toLowerCase (s : jstring) : jstring := map lower_char s.

(** [c.repeat(n)] *)
Definition repeat_str (s : jstring) (n : nat) : jstring :=
  concat (repeat s n).

(** [xs.join(sep)] *)
Fixpoint join (sep : jstring) (xs : list jstring) : jstring :=
  match xs with
  | [] => []
  | [x] => x
  | x :: xs' => x ++ sep ++ join sep xs'
  end.

(** [s.split(c)] for a one-character separator: always at least one piece. *)
Fixpoint split_char (c : ascii) (s : jstring) : list jstring :=
  match s with
  | [] => [[]]
  | x :: s' =>
      if ascii_eqb x c then [] :: split_char c s'
      else match split_char c s' with
           | seg :: rest => (x :: seg) :: rest
           | [] => [[x]]
           end
  end.

(** The order the default [Array.prototype.sort] uses on strings: code units
    compared from the left, a proper prefix first. *)
Fixpoint leb (s t : jstring) : bool :=
  match s, t with
  | [], _ => true
  | _ :: _, [] => false
  | a :: s', b :: t' =>
      let x := nat_of_ascii a in
      let y := nat_of_ascii b in
      if x <? y then true
      else if y <? x then false
      else leb s' t'
  end.

(** Decimal rendering of an integer, as [String(n)] gives it. *)
Definition of_Z (z : Z) : jstring :=
  str (NilZero.string_of_int (Z.to_int z)).

End JsString.

Import JsString.

(** ** JavaScript values *)

Module Js.

(** The values the handlers see: request bodies, parsed JSON, thrown errors.
    Numbers are the integers among the JavaScript numbers.  An object is its
    list of bindings; the first binding of a key is the live one. *)
Inductive jsval : Type :=
| JUndefined
| JNull
| JBool (b : bool)
| JNum (n : Z)
| JStr (s : jstring)
| JArr (items : list jsval)
| JObj (fields : list (jstring * jsval)).

Fixpoint assoc {A : Type} (k : jstring) (kvs : list (jstring * A)) : option A :=
  match kvs with
  | [] => None
  | (k', v) :: rest => if eqb k k' then Some v else assoc k rest
  end.

(** ToBoolean *)
Definition truthy (v : jsval) : bool :=
  match v with
  | JUndefined | JNull => false
  | JBool b => b
  | JNum n => negb (n =? 0)%Z
  | JStr s => match s with [] => false | _ :: _ => true end
  | JArr _ | JObj _ => true
  end.

(** [a || b] *)
Definition js_or (a b : jsval) : jsval := if truthy a then a else b.

(** ToString, as template literals and [+] on strings apply it. *)
Fixpoint to_string (v : jsval) : jstring :=
  match v with
  | JUndefined => str "undefined"
  | JNull => str "null"
  | JBool true => str "true"
  | JBool false => str "false"
  | JNum n => of_Z n
  | JStr s => s
  | JArr items =>
      join (str ",")
        (map (fun x => match x with
                       | JUndefined | JNull => []
                       | _ => to_string x
                       end) items)
  | JObj _ => str "[object Object]"
  end.

(** Error objects: [name] tells the class, [message] the text. *)
Definition mk_error (name message : jstring) : jsval :=
  JObj [(str "name", JStr name); (str "message", JStr message)].

Definition TypeError (message : jstring) : jsval := mk_error (str "TypeError") message.
Definition ReferenceError (message : jstring) : jsval := mk_error (str "ReferenceError") message.
Definition SyntaxError (message : jstring) : jsval := mk_error (str "SyntaxError") message.
Definition Error (message : jstring) : jsval := mk_error (str "Error") message.

(** [new multer.MulterError(code)] *)
Definition MulterError (code message : jstring) : jsval :=
  JObj [(str "name", JStr (str "MulterError"));
        (str "message", JStr message);
        (str "code", JStr code)].

(** A computation that may throw: [inl] a value, [inr] the thrown value. *)
Definition completion (A : Type) : Type := (A + jsval)%type.

(** [v.k]: reading a property of [undefined] or [null] throws a TypeError;
    a missing property reads as [undefined]. *)
Definition prop (v : jsval) (k : jstring) : completion jsval :=
  match v with
  | JUndefined =>
      inr (TypeError (str "Cannot read properties of undefined (reading '" ++ k ++ str "')"))
  | JNull =>
      inr (TypeError (str "Cannot read properties of null (reading '" ++ k ++ str "')"))
  | JObj fields =>
      match assoc k fields with
      | Some x => inl x
      | None => inl JUndefined
      end
  | _ => inl JUndefined
  end.

(** [v?.k] *)
Definition opt_prop (v : jsval) (k : jstring) : jsval :=
  match v with
  | JObj fields =>
      match assoc k fields with
      | Some x => x
      | None => JUndefined
      end
  | _ => JUndefined
  end.

(** [v?.[i]] on an array or a string; anything else the handlers index this
    way has no such element. *)
Definition opt_index (v : jsval) (i : nat) : jsval :=
  match v with
  | JArr items => nth i items JUndefined
  | JStr s =>
      match nth_error s i with
      | Some c => JStr [c]
      | None => JUndefined
      end
  | _ => JUndefined
  end.

(** [v === s] for a string literal [s]. *)
Definition strict_eq_str (v : jsval) (s : jstring) : bool :=
  match v with
  | JStr t => eqb t s
  | _ => false
  end.

(** [v instanceof multer.MulterError] *)
Definition is_MulterError (v : jsval) : bool :=
  strict_eq_str (opt_prop v (str "name")) (str "MulterError").

End Js.

Import Js.

(** ** Node's [path] module (POSIX flavour) *)

Module Path.

Definition slash : ascii := "/"%char.
Definition dot : ascii := "."%char.

(** [normalizeString]: drops empty and [.] segments, lets [..] cancel the
    segment before it; above the root [..] is kept only for relative paths. *)
Fixpoint normalize_segments (allowAboveRoot : bool)
    (stack : list jstring) (segs : list jstring) : list jstring :=
  match segs with
  | [] => rev stack
  | seg :: rest =>
      if eqb seg [] || eqb seg (str ".") then
        normalize_segments allowAboveRoot stack rest
      else if eqb seg (str "..") then
        match stack with
        | top :: below =>
            if eqb top (str "..") then
              normalize_segments allowAboveRoot
                (if allowAboveRoot then seg :: stack else stack) rest
            else normalize_segments allowAboveRoot below rest
        | [] =>
            normalize_segments allowAboveRoot
              (if allowAboveRoot then [seg] else []) rest
        end
      else normalize_segments allowAboveRoot (seg :: stack) rest
  end.

Definition isAbsolute (p : jstring) : bool :=
  match p with
  | c :: _ => ascii_eqb c slash
  | [] => false
  end.

Definition has_trailing_slash (p : jstring) : bool :=
  match rev p with
  | c :: _ => ascii_eqb c slash
  | [] => false
  end.

(** [path.normalize] *)
Definition normalize (p : jstring) : jstring :=
  match p with
  | [] => str "."
  | _ :: _ =>
      let abs := isAbsolute p in
      let trailing := has_trailing_slash p in
      let body := join [slash]
                    (normalize_segments (negb abs) [] (split_char slash p)) in
      match body with
      | [] => if abs then [slash] else if trailing then str "./" else str "."
      | _ :: _ =>
          let body' := if trailing then body ++ [slash] else body in
          if abs then slash :: body' else body'
      end
  end.

(** [path.join(...parts)]: the non-empty parts, joined by [/], normalized. *)
Definition join_paths (parts : list jstring) : jstring :=
  match filter (fun a => negb (eqb a [])) parts with
  | [] => str "."
  | kept => normalize (join [slash] kept)
  end.

(** The last component of a path, trailing slashes ignored. *)
Fixpoint strip_trailing_slashes_rev (r : jstring) : jstring :=
  match r with
  | c :: r' => if ascii_eqb c slash then strip_trailing_slashes_rev r' else r
  | [] => []
  end.

Fixpoint take_until_slash (r : jstring) : jstring :=
  match r with
  | c :: r' => if ascii_eqb c slash then [] else c :: take_until_slash r'
  | [] => []
  end.

Definition basename (p : jstring) : jstring :=
  rev (take_until_slash (strip_trailing_slashes_rev (rev p))).

(** The reversed text after the last dot of a reversed name, when there is
    a dot. *)
Fixpoint after_last_dot_rev (r : jstring) : option jstring :=
  match r with
  | [] => None
  | c :: r' =>
      if ascii_eqb c dot then Some []
      else match after_last_dot_rev r' with
           | Some e => Some (c :: e)
           | None => None
           end
  end.

(** [path.extname]: from the last dot of the last component to its end;
    empty when there is no dot, when the only dot leads the component, and
    for the component [..]. *)
Definition extname (p : jstring) : jstring :=
  let b := basename p in
  match after_last_dot_rev (rev b) with
  | None => []
  | Some e =>
      let ext := dot :: rev e in
      if (length ext =? length b) || eqb b (str "..") then [] else ext
  end.

End Path.

(** ** The world of the server: files, runtime command, processes *)

(** How a spawned process ends: the [close] event with its exit code
    ([None] when a signal ended it) and what it wrote, or the [error]
    event when it could not be started. *)
Inductive proc_outcome : Type :=
| Closed (code : option Z) (stdout stderr : jstring)
| SpawnFailed (message : jstring).

Record world : Type := mkWorld {
  PYTHON_CMD : option jstring;                 (* [let PYTHON_CMD] *)
  files : list jstring;                        (* the regular files that exist *)
  dirs : list jstring;                         (* the directories that exist *)
  spawned : list (jstring * list jstring);     (* [spawn] calls, oldest first *)
  clock_ms : Z;                                (* [Date.now()] *)
  clock_iso : jstring;                         (* [new Date().toISOString()] *)
  clock_locale : jstring;                      (* [new Date().toLocaleString()] *)
  random_1e9 : Z                               (* [Math.round(Math.random() * 1E9)] *)
}.

Definition set_files (fs : list jstring) (w : world) : world :=
  mkWorld (PYTHON_CMD w) fs (dirs w) (spawned w)
          (clock_ms w) (clock_iso w) (clock_locale w) (random_1e9 w).

Definition set_dirs (ds : list jstring) (w : world) : world :=
  mkWorld (PYTHON_CMD w) (files w) ds (spawned w)
          (clock_ms w) (clock_iso w) (clock_locale w) (random_1e9 w).

Definition log_spawn (cmd : jstring) (args : list jstring) (w : world) : world :=
  mkWorld (PYTHON_CMD w) (files w) (dirs w) (spawned w ++ [(cmd, args)])
          (clock_ms w) (clock_iso w) (clock_locale w) (random_1e9 w).

(** Handler code: reads and writes the world, returns or throws. *)
Definition M (A : Type) : Type := world -> completion A * world.

Definition ret {A : Type} (a : A) : M A := fun w => (inl a, w).

Definition throw {A : Type} (e : jsval) : M A := fun w => (inr e, w).

Definition bind {A B : Type} (m : M A) (k : A -> M B) : M B :=
  fun w =>
    match m w with
    | (inl a, w') => k a w'
    | (inr e, w') => (inr e, w')
    end.

(** [try { body } catch (err) { handler }] *)
Definition try_catch {A : Type} (body : M A) (handler : jsval -> M A) : M A :=
  fun w =>
    match body w with
    | (inl a, w') => (inl a, w')
    | (inr e, w') => handler e w'
    end.

Definition lift {A : Type} (c : completion A) : M A :=
  fun w => (c, w).

Definition get_world : M world := fun w => (inl w, w).

Declare Scope js_scope.
Delimit Scope js_scope with js.
Notation "x <- m ;; k" := (bind m (fun x => k))
  (at level 61, m at next level, right associativity) : js_scope.
Notation "m ;;; k" := (bind m (fun _ => k))
  (at level 61, right associativity) : js_scope.
Open Scope js_scope.

(** *** [fs] *)

Fixpoint mem (x : jstring) (xs : list jstring) : bool :=
  match xs with
  | [] => false
  | y :: ys => eqb x y || mem x ys
  end.

Fixpoint remove_path (x : jstring) (xs : list jstring) : list jstring :=
  match xs with
  | [] => []
  | y :: ys => if eqb x y then remove_path x ys else y :: remove_path x ys
  end.

(** Keeps the first of equal names. *)
Fixpoint dedup (xs : list jstring) : list jstring :=
  match xs with
  | [] => []
  | x :: xs' => x :: remove_path x (dedup xs')
  end.

(** The path of a directory as [dirs] lists it: without the slashes that
    may end it ([/] itself stays). *)
Definition dir_path (p : jstring) : jstring :=
  match Path.strip_trailing_slashes_rev (rev p) with
  | [] => match p with
          | [] => []
          | _ :: _ => [Path.slash]
          end
  | c :: r => rev (c :: r)
  end.

(** Something is at the path [p]: a regular file, or a directory (which a
    path may also name with a slash at its end; a regular file it may not). *)
Definition path_exists (p : jstring) (w : world) : bool :=
  mem p (files w) || mem (dir_path p) (dirs w).

(** [fs.existsSync(p)]: true of regular files and of directories alike. *)
Definition existsSync (p : jstring) : M bool :=
  fun w => (inl (path_exists p w), w).

(** [fs.unlinkSync(p)]: throws when there is no such file, and so also
    when [p] is a directory. *)
Definition unlinkSync (p : jstring) : M unit :=
  fun w =>
    if mem p (files w) then (inl tt, set_files (remove_path p (files w)) w)
    else (inr (Error (str "ENOENT: no such file or directory, unlink '" ++ p ++ str "'")), w).

(** The name under which the path [p] shows in a listing of [dir]: its
    first component below [dir]. *)
Definition entry_under (dir p : jstring) : option jstring :=
  let prefix := dir ++ [Path.slash] in
  if startsWith prefix p then
    match split_char Path.slash (skipn (length prefix) p) with
    | [] :: _ => None
    | name :: _ => Some name
    | [] => None
    end
  else None.

Fixpoint entries_under (dir : jstring) (ps : list jstring) : list jstring :=
  match ps with
  | [] => []
  | p :: ps' =>
      match entry_under dir p with
      | Some name => name :: entries_under dir ps'
      | None => entries_under dir ps'
      end
  end.

(** [fs.readdirSync(dir)]: the distinct names in [dir], in the order the
    file system hands them out (here: the order of [files]); a directory
    inside [dir] shows through the files below it.  The two directories the
    server reads and writes are made at startup and nothing in the server
    removes them. *)
Definition readdirSync (dir : jstring) : M (list jstring) :=
  fun w => (inl (dedup (entries_under dir (files w))), w).

(** The world once the file [p] is on disk.  The write is taken to succeed
    (multer writes under a name it has just made up from the clock and a
    random number), so afterwards a regular file is at [p], and no
    directory is. *)
Definition stored (p : jstring) (w : world) : world :=
  let w' := if mem p (files w) then w else set_files (files w ++ [p]) w in
  set_dirs (remove_path (dir_path p) (dirs w')) w'.

(** A file written to disk (by multer's disk storage). *)
Definition writeFile (p : jstring) : M unit :=
  fun w => (inl tt, stored p w).

(** ** HTTP requests and responses *)

Inductive http_method : Type := GET | POST.

Definition method_eqb (a b : http_method) : bool :=
  match a, b with
  | GET, GET | POST, POST => true
  | _, _ => false
  end.

(** The multipart field [file] of an upload, as the client sent it. *)
Record file_part : Type := mkPart {
  part_originalname : jstring;
  part_mimetype : jstring;
  part_size : Z
}.

(** [req.file] as multer's disk storage fills it. *)
Record multer_file : Type := mkFile {
  originalname : jstring;
  mimetype : jstring;
  path : jstring;
  size : Z
}.

Record request : Type := mkRequest {
  req_method : http_method;
  req_url : jstring;
  req_body : jsval;
  req_part : option file_part;
  req_file : option multer_file
}.

(** The request with [req.file] set: the part stored at [p]. *)
Definition with_file (req : request) (part : file_part) (p : jstring) : request :=
  mkRequest (req_method req) (req_url req) (req_body req) (req_part req)
    (Some (mkFile (part_originalname part) (part_mimetype part) p (part_size part))).

Inductive body : Type :=
| Json (v : jsval)
| Text (s : jstring).

Record response : Type := mkResponse {
  status : nat;
  headers : list (jstring * jstring);
  payload : body
}.

(** [res.status(code).json(v)] *)
Definition send_json (code : nat) (v : jsval) : response :=
  mkResponse code [] (Json v).

(** The [{ success: false, error }] envelope. *)
Definition failure (code : nat) (error : jsval) : response :=
  send_json code (JObj [(str "success", JBool false); (str "error", error)]).

(** ** Helpers shared by the handlers *)

Definition nl : jstring := [ascii_of_nat 10].
Definition dquote : jstring := [ascii_of_nat 34].

(** [v.method(...)] for an array method: only arrays have it. *)
Definition array_method (v : jsval) (method : jstring) : completion (list jsval) :=
  match v with
  | JArr items => inl items
  | JUndefined =>
      inr (TypeError (str "Cannot read properties of undefined (reading '" ++ method ++ str "')"))
  | JNull =>
      inr (TypeError (str "Cannot read properties of null (reading '" ++ method ++ str "')"))
  | _ => inr (TypeError (method ++ str " is not a function"))
  end.

(** [v.method(...)] for a string method. *)
Definition string_method (v : jsval) (method : jstring) : completion jstring :=
  match v with
  | JStr s => inl s
  | JUndefined =>
      inr (TypeError (str "Cannot read properties of undefined (reading '" ++ method ++ str "')"))
  | JNull =>
      inr (TypeError (str "Cannot read properties of null (reading '" ++ method ++ str "')"))
  | _ => inr (TypeError (method ++ str " is not a function"))
  end.

(** [v[0]] *)
Definition index0 (v : jsval) : completion jsval :=
  match v with
  | JUndefined =>
      inr (TypeError (str "Cannot read properties of undefined (reading '0')"))
  | JNull =>
      inr (TypeError (str "Cannot read properties of null (reading '0')"))
  | JArr items => inl (nth 0 items JUndefined)
  | JStr (c :: _) => inl (JStr [c])
  | JObj fields =>
      match assoc (str "0") fields with
      | Some x => inl x
      | None => inl JUndefined
      end
  | _ => inl JUndefined
  end.

(** The lines [`${i + 1}. ${x}`] of a [map]/[forEach] with index, counting
    from [i]. *)
Fixpoint numbered (i : nat) (items : list jsval) : list jstring :=
  match items with
  | [] => []
  | x :: rest =>
      (of_Z (Z.of_nat (i + 1)) ++ str ". " ++ to_string x) :: numbered (i + 1) rest
  end.

(** [xs.slice(-n)]: the last [n] items. *)
Definition slice_last {A : Type} (n : nat) (xs : list A) : list A :=
  skipn (length xs - n) xs.

(** [xs.slice(0, n)] *)
Definition slice_first {A : Type} (n : nat) (xs : list A) : list A := firstn n xs.

(** [xs.join(sep)] on values: [undefined] and [null] items print empty. *)
Definition join_values (sep : jstring) (xs : list jsval) : jstring :=
  join sep (map (fun x => match x with
                          | JUndefined | JNull => []
                          | _ => to_string x
                          end) xs).

(** [s.trim()] *)
Fixpoint trim_left (s : jstring) : jstring :=
  match s with
  | c :: s' => if is_space c then trim_left s' else s
  | [] => []
  end.

Definition trim (s : jstring) : jstring := rev (trim_left (rev (trim_left s))).

(** Every double-quote character is doubled (the CSV escaping of the
    feedback text). *)
Definition double_quotes (s : jstring) : jstring :=
  flat_map (fun c => if ascii_eqb c (ascii_of_nat 34) then dquote ++ dquote else [c]) s.

(** Insertion into a list kept in [leb] order; an equal item goes after the
    ones already there. *)
Fixpoint insert_sorted (x : jstring) (xs : list jstring) : list jstring :=
  match xs with
  | [] => [x]
  | y :: ys => if leb y x then y :: insert_sorted x ys else x :: y :: ys
  end.

(** [xs.sort()] with the default comparison: on strings the order is total,
    so the sorted array is determined by its items. *)
Definition js_sort (xs : list jstring) : list jstring :=
  fold_left (fun acc x => insert_sorted x acc) xs [].

(** *** [Map], in insertion order *)

Definition js_map (V : Type) : Type := list (jstring * V).

Definition map_has {V : Type} (k : jstring) (m : js_map V) : bool :=
  match assoc k m with
  | Some _ => true
  | None => false
  end.

Fixpoint map_set {V : Type} (k : jstring) (v : V) (m : js_map V) : js_map V :=
  match m with
  | [] => [(k, v)]
  | (k', v') :: rest =>
      if eqb k k' then (k', v) :: rest else (k', v') :: map_set k v rest
  end.

Definition map_values {V : Type} (m : js_map V) : list V := map snd m.

(** ** The instructor records of the upload response *)

Record instructor : Type := mkInstructor {
  id : jstring;
  name : jstring;
  filename : jstring
}.

Definition instructor_json (i : instructor) : jsval :=
  JObj [(str "id", JStr (id i));
        (str "name", JStr (name i));
        (str "filename", JStr (filename i))].

Definition suffix : jstring := str "_feedback.csv".

Definition underscore : ascii := "_"%char.
Definition space : ascii := " "%char.

(** [files.map(file => ({ id, name, filename }))], first registration. *)
Definition instructor_of_file (file : jstring) : instructor :=
  let instructorName :=
    replace_all_char underscore space (replace_first suffix [] file) in
  mkInstructor (replace_first suffix [] file) instructorName file.

(** The body of [files.forEach(file => ...)], second registration. *)
Definition instructorMap_step (instructorMap : js_map instructor) (file : jstring)
  : js_map instructor :=
  let baseName := replace_first suffix [] file in
  let displayName := replace_all_char underscore space baseName in
  if negb (map_has baseName instructorMap) then
    map_set baseName (mkInstructor baseName displayName file) instructorMap
  else instructorMap.

Definition instructors_of_files_v2 (files : list jstring) : list instructor :=
  map_values (fold_left instructorMap_step files []).

(** The success body of the upload endpoint. *)
Definition upload_ok (instructors : list instructor) : response :=
  send_json 200
    (JObj [(str "success", JBool true);
           (str "instructors", JArr (map instructor_json instructors));
           (str "message",
            JStr (str "Found " ++ of_Z (Z.of_nat (length instructors))
                  ++ str " instructors"))]).

(** ** The server *)

Section Server.

(** [__dirname], the directory of server.js. *)
Variable dirname : jstring.

(** The operating system running a command: from the command, its arguments
    and the files present, how the process ends and the files it leaves.
    The scripts of the server write and remove regular files only: a process
    leaves the directories as they are. *)
Variable os_run : jstring -> list jstring -> list jstring -> proc_outcome * list jstring.

(** [JSON.parse] *)
Variable JSON_parse : jstring -> completion jsval.

(** [fetch(url, options)] followed by [response.json()]: the parsed reply, or
    what either of the two throws. *)
Variable fetch_json : jstring -> jsval -> completion jsval.

Definition uploadsDir : jstring := Path.join_paths [dirname; str "uploads"].
Definition instructorDataDir : jstring := Path.join_paths [dirname; str "instructor_data"].

(** [spawn(cmd, args)], run to its [close] or [error] event. *)
Definition spawn (cmd : jstring) (args : list jstring) : M proc_outcome :=
  fun w =>
    let '(o, fs) := os_run cmd args (files w) in
    (inl o, set_files fs (log_spawn cmd args w)).

Definition code_value (code : option Z) : jsval :=
  match code with
  | Some z => JNum z
  | None => JNull
  end.

Definition code_is_zero (code : option Z) : bool :=
  match code with
  | Some z => (z =? 0)%Z
  | None => false
  end.

(** [runPythonScript(scriptPath, args)]: resolves with the captured stdout on
    exit code 0, rejects with [{ code, stderr, stdout }] on any other exit and
    with [{ error }] when the process cannot be started. *)
Definition runPythonScript (scriptPath : jstring) (args : list jstring) : M jstring :=
  w <- get_world ;;
  match PYTHON_CMD w with
  | None => throw (TypeError (str "The file argument must be of type string. Received null"))
  | Some py =>
      o <- spawn py (scriptPath :: args) ;;
      match o with
      | Closed code dataString errorString =>
          if negb (code_is_zero code) then
            throw (JObj [(str "code", code_value code);
                         (str "stderr", JStr errorString);
                         (str "stdout", JStr dataString)])
          else ret dataString
      | SpawnFailed message => throw (JObj [(str "error", JStr message)])
      end
  end.

(** *** multer *)

(** [fileFilter] *)
Definition fileFilter (file : file_part) : completion bool :=
  if eqb (part_mimetype file) (str "text/csv")
     || eqb (Path.extname (part_originalname file)) (str ".csv")
  then inl true
  else inr (Error (str "Only CSV files are allowed!")).

(** [limits.fileSize] *)
Definition fileSize_limit : Z := 10 * 1024 * 1024.

(** [storage.filename] *)
Definition storage_filename (w : world) (file : file_part) : jstring :=
  let uniqueSuffix := of_Z (clock_ms w) ++ str "-" ++ of_Z (random_1e9 w) in
  str "feedback-" ++ uniqueSuffix ++ Path.extname (part_originalname file).

(** [upload.single('file')]: without a file part the request goes on
    untouched; a part the filter refuses or that exceeds the size limit is
    passed to [next] as an error; otherwise the part is stored under
    [uploadsDir] and described in [req.file]. *)
Definition upload_single (req : request) : M request :=
  match req_part req with
  | None => ret req
  | Some part =>
      _ <- lift (fileFilter part) ;;
      if (fileSize_limit <? part_size part)%Z then
        throw (MulterError (str "LIMIT_FILE_SIZE") (str "File too large"))
      else
        w <- get_world ;;
        let p := Path.join_paths [uploadsDir; storage_filename w part] in
        writeFile p ;;;
        ret (with_file req part p)
  end.

(** *** POST /api/login *)

Definition ADMIN_username : jstring := str "admin@edusense.com".
Definition ADMIN_password : jstring := str "demo123".

Definition login_handler (req : request) : M response :=
  username <- lift (prop (req_body req) (str "username")) ;;
  password <- lift (prop (req_body req) (str "password")) ;;
  if strict_eq_str username ADMIN_username && strict_eq_str password ADMIN_password then
    ret (send_json 200
           (JObj [(str "success", JBool true);
                  (str "message", JStr (str "Login successful"));
                  (str "user", JObj [(str "username", username);
                                     (str "role", JStr (str "admin"))])]))
  else
    ret (send_json 401
           (JObj [(str "success", JBool false);
                  (str "message", JStr (str "Invalid credentials"))])).

(** *** POST /api/upload *)

Definition python_missing : jstring := str "Python is not installed or not found in PATH.".

Definition no_instructor_data : jstring :=
  str "No instructor data found. Make sure CSV has " ++ dquote ++ str "Instructor"
  ++ dquote ++ str " column.".

(** The [catch] block of both registrations. *)
Definition upload_catch (filePath : jstring) (err : jsval) : M response :=
  there <- existsSync filePath ;;
  (if there then unlinkSync filePath else ret tt) ;;;
  stderr <- lift (prop err (str "stderr")) ;;
  error <- lift (prop err (str "error")) ;;
  ret (failure 500
         (JStr (str "Failed to split CSV by instructor: "
                ++ to_string (js_or (js_or stderr error) (JStr (str "Unknown error")))))).

(** The first registration (the handler written first in the file). *)
Definition upload_handler (req : request) : M response :=
  match req_file req with
  | None => ret (failure 400 (JStr (str "No file uploaded")))
  | Some file =>
      w <- get_world ;;
      match PYTHON_CMD w with
      | None =>
          unlinkSync (path file) ;;;
          ret (failure 500 (JStr python_missing))
      | Some _ =>
          let filePath := path file in
          let extractScript := Path.join_paths [dirname; str "extract_instructor_data.py"] in
          there <- existsSync extractScript ;;
          if negb there then
            unlinkSync filePath ;;;
            ret (failure 500
                   (JStr (str "extract_instructor_data.py not found in server directory.")))
          else
            try_catch
              (_ <- runPythonScript extractScript [filePath] ;;
               unlinkSync filePath ;;;
               listing <- readdirSync instructorDataDir ;;
               let files := filter (endsWith suffix) listing in
               if length files =? 0 then
                 ret (failure 400 (JStr no_instructor_data))
               else
                 ret (upload_ok (map instructor_of_file files)))
              (upload_catch filePath)
      end
  end.

(** The second registration (the handler after the error middleware). *)
Definition upload_handler_2 (req : request) : M response :=
  match req_file req with
  | None => ret (failure 400 (JStr (str "No file uploaded")))
  | Some file =>
      w <- get_world ;;
      match PYTHON_CMD w with
      | None =>
          unlinkSync (path file) ;;;
          ret (failure 500 (JStr python_missing))
      | Some _ =>
          let filePath := path file in
          let extractScript := Path.join_paths [dirname; str "extract_instructor_data.py"] in
          there <- existsSync extractScript ;;
          if negb there then
            unlinkSync filePath ;;;
            ret (failure 500
                   (JStr (str "extract_instructor_data.py not found in server directory.")))
          else
            try_catch
              (_ <- runPythonScript extractScript [filePath] ;;
               unlinkSync filePath ;;;
               listing <- readdirSync instructorDataDir ;;
               let files := js_sort (filter (endsWith suffix) listing) in
               if length files =? 0 then
                 ret (failure 400 (JStr no_instructor_data))
               else
                 ret (upload_ok (instructors_of_files_v2 files)))
              (upload_catch filePath)
      end
  end.

(** *** POST /api/analyze-instructor *)

(** [path.join(instructorDataDir, filename)]: [path.join] takes strings only. *)
Definition join_instructor_path (filename : jsval) : completion jstring :=
  match filename with
  | JStr f => inl (Path.join_paths [instructorDataDir; f])
  | _ => inr (TypeError (str "The path argument must be of type string."))
  end.

(** The [catch] block of the analyze handler. *)
Definition analyze_catch (err : jsval) : M response :=
  stderr <- lift (prop err (str "stderr")) ;;
  stdout <- lift (prop err (str "stdout")) ;;
  let fallback := JStr (str "Analysis failed") in
  missing <- (if truthy stderr then
                s <- lift (string_method stderr (str "includes")) ;;
                ret (includes (str "ModuleNotFoundError") s)
              else ret false) ;;
  errorMessage <-
    (if missing then
       ret (JStr (str "Python dependencies missing. Run: pip install transformers torch pandas"))
     else if truthy stdout then
       try_catch
         (jsonError <- lift (JSON_parse (to_string stdout)) ;;
          e <- lift (prop jsonError (str "error")) ;;
          ret (js_or e fallback))
         (fun _ => ret (js_or (js_or stdout stderr) fallback))
     else ret fallback) ;;
  ret (send_json 500
         (JObj [(str "success", JBool false);
                (str "error", errorMessage);
                (str "details", JObj [(str "stderr", stderr); (str "stdout", stdout)])])).

Definition analyze_ok (result filename : jsval) : response :=
  send_json 200
    (JObj [(str "success", JBool true);
           (str "data", result);
           (str "filename", filename)]).

Definition analyze_handler (req : request) : M response :=
  filename <- lift (prop (req_body req) (str "filename")) ;;
  if negb (truthy filename) then
    ret (failure 400 (JStr (str "Filename is required")))
  else
    w <- get_world ;;
    match PYTHON_CMD w with
    | None => ret (failure 500 (JStr python_missing))
    | Some _ =>
        instructorFilePath <- lift (join_instructor_path filename) ;;
        let analyzeScript := Path.join_paths [dirname; str "analyze.py"] in
        there <- existsSync instructorFilePath ;;
        if negb there then
          ret (failure 404 (JStr (str "Instructor file not found")))
        else
          script_there <- existsSync analyzeScript ;;
          if negb script_there then
            ret (failure 500 (JStr (str "analyze.py not found in server directory.")))
          else
            try_catch
              (output <- runPythonScript analyzeScript [instructorFilePath] ;;
               result <- lift (JSON_parse output) ;;
               e <- lift (prop result (str "error")) ;;
               if truthy e then ret (failure 400 e)
               else ret (analyze_ok result filename))
              analyze_catch
    end.

(** *** GET /api/health *)

Definition health_handler (req : request) : M response :=
  w <- get_world ;;
  match PYTHON_CMD w with
  | None =>
      ret (send_json 200
             (JObj [(str "status", JStr (str "warning"));
                    (str "timestamp", JStr (clock_iso w));
                    (str "python_available", JBool false);
                    (str "python_version", JStr (str "Not found"));
                    (str "message", JStr (str "Python is not installed or not in PATH"))]))
  | Some py =>
      o <- spawn py [str "--version"] ;;
      match o with
      | Closed code out err =>
          ret (send_json 200
                 (JObj [(str "status", JStr (str "ok"));
                        (str "timestamp", JStr (clock_iso w));
                        (str "python_available", JBool (code_is_zero code));
                        (str "python_version", JStr (trim (out ++ err)));
                        (str "python_command", JStr py)]))
      | SpawnFailed message => throw (Error message)
      end
  end.

(** *** POST /api/download-report *)

Definition rule (c : string) : jstring := repeat_str (str c) 50.

(** [instructor ? instructor.replace(/\s+/g, '_') : 'feedback'] *)
Definition file_stem (instructor : jsval) : completion jstring :=
  if truthy instructor then
    match string_method instructor (str "replace") with
    | inl s => inl (replace_space_runs (str "_") s)
    | inr e => inr e
    end
  else inl (str "feedback").

(** One titled, numbered list of the report. *)
Definition report_list (title : jstring) (v : jsval) : completion jstring :=
  match array_method v (str "forEach") with
  | inl items =>
      inl (title ++ nl ++ rule "-" ++ nl
           ++ concat (map (fun line => line ++ nl) (numbered 0 items)))
  | inr e => inr e
  end.

Definition report_handler (req : request) : M response :=
  data <- lift (prop (req_body req) (str "data")) ;;
  instructor <- lift (prop (req_body req) (str "instructor")) ;;
  w <- get_world ;;
  let head :=
    str "EDUSENSE - FEEDBACK ANALYSIS REPORT" ++ nl
    ++ rule "=" ++ nl ++ nl
    ++ str "Instructor: " ++ to_string (js_or instructor (JStr (str "All"))) ++ nl
    ++ str "Generated: " ++ clock_locale w ++ nl ++ nl in
  summary <- (if truthy data then lift (prop data (str "summary")) else ret data) ;;
  report <-
    (if truthy summary then
       total <- lift (prop summary (str "total_responses")) ;;
       rating <- lift (prop summary (str "average_rating")) ;;
       sentiment <- lift (prop summary (str "avg_sentiment_percentage")) ;;
       themes <- lift (prop summary (str "key_themes_count")) ;;
       let figures :=
         str "SUMMARY" ++ nl ++ rule "-" ++ nl
         ++ str "Total Responses: " ++ to_string total ++ nl
         ++ str "Average Rating: " ++ to_string rating ++ nl
         ++ str "Positive Sentiment: " ++ to_string sentiment ++ str "%" ++ nl
         ++ str "Key Themes: " ++ to_string themes ++ nl ++ nl in
       praise <- lift (prop summary (str "top_praise_areas")) ;;
       praise_text <- lift (report_list (str "TOP PRAISE AREAS") praise) ;;
       improve <- lift (prop summary (str "improvement_areas")) ;;
       improve_text <- lift (report_list (nl ++ str "AREAS FOR IMPROVEMENT") improve) ;;
       recs <- lift (prop summary (str "recommendations")) ;;
       recs_text <- lift (report_list (nl ++ str "RECOMMENDATIONS") recs) ;;
       ret (head ++ figures ++ praise_text ++ improve_text ++ recs_text)
     else ret head) ;;
  stem <- lift (file_stem instructor) ;;
  ret (mkResponse 200
         [(str "Content-Type", str "text/plain");
          (str "Content-Disposition",
           str "attachment; filename=" ++ stem ++ str "_report.txt")]
         (Text report)).

(** *** The error-handling middleware *)

Definition error_middleware (error : jsval) (req : request) : M response :=
  too_large <- (if is_MulterError error then
                  code <- lift (prop error (str "code")) ;;
                  ret (strict_eq_str code (str "LIMIT_FILE_SIZE"))
                else ret false) ;;
  if too_large then
    ret (failure 400 (JStr (str "File size too large. Maximum size is 10MB.")))
  else
    message <- lift (prop error (str "message")) ;;
    ret (failure 500 (js_or message (JStr (str "Internal server error")))).

(** *** POST /api/download-csv *)

(** One row of the CSV: the seven fields of an item, joined by commas. *)
Definition csv_row (item : jsval) : completion jstring :=
  match prop item (str "student_id") with
  | inr e => inr e
  | inl student_id =>
      match string_method (opt_prop item (str "feedback_text")) (str "replace") with
      | inr e => inr e
      | inl text =>
          inl (join_values (str ",")
                 [student_id;
                  opt_prop item (str "course");
                  opt_prop item (str "instructor");
                  opt_prop item (str "rating");
                  opt_prop item (str "sentiment");
                  opt_prop item (str "category");
                  JStr (dquote ++ double_quotes text ++ dquote)])
      end
  end.

Fixpoint csv_rows (items : list jsval) : completion jstring :=
  match items with
  | [] => inl []
  | item :: rest =>
      match csv_row item with
      | inr e => inr e
      | inl row =>
          match csv_rows rest with
          | inr e => inr e
          | inl more => inl (row ++ nl ++ more)
          end
      end
  end.

Definition csv_handler (req : request) : M response :=
  data <- lift (prop (req_body req) (str "data")) ;;
  instructor <- lift (prop (req_body req) (str "instructor")) ;;
  individual <- (if truthy data then lift (prop data (str "individual_analysis"))
                 else ret JUndefined) ;;
  if negb (truthy data) || negb (truthy individual) then
    ret (failure 400 (JStr (str "No data provided")))
  else
    items <- lift (array_method individual (str "forEach")) ;;
    rows <- lift (csv_rows items) ;;
    summary <- lift (prop data (str "summary")) ;;
    total <- lift (prop summary (str "total_responses")) ;;
    rating <- lift (prop summary (str "average_rating")) ;;
    sentiment <- lift (prop summary (str "avg_sentiment_percentage")) ;;
    themes <- lift (prop summary (str "key_themes_count")) ;;
    let csv :=
      str "Student ID,Course,Instructor,Rating,Sentiment,Category,Feedback" ++ nl
      ++ rows
      ++ nl ++ nl ++ str "SUMMARY" ++ nl
      ++ str "Total Responses," ++ to_string total ++ nl
      ++ str "Average Rating," ++ to_string rating ++ nl
      ++ str "Positive Sentiment %," ++ to_string sentiment ++ nl
      ++ str "Key Themes," ++ to_string themes ++ nl in
    w <- get_world ;;
    let date := hd [] (split_char "T"%char (clock_iso w)) in
    stem <- lift (file_stem instructor) ;;
    let filename := stem ++ str "_analysis_" ++ date ++ str ".csv" in
    ret (mkResponse 200
           [(str "Content-Type", str "text/csv");
            (str "Content-Disposition",
             str "attachment; filename=" ++ dquote ++ filename ++ dquote)]
           (Text csv)).

(** *** POST /api/chat *)

(** A lexical environment: the frames of bindings visible at a point of the
    program, innermost first. *)
Definition frame : Type := list (jstring * jsval).

Fixpoint resolve (frames : list frame) (x : jstring) : completion jsval :=
  match frames with
  | [] => inr (ReferenceError (x ++ str " is not defined"))
  | f :: outer =>
      match assoc x f with
      | Some v => inl v
      | None => resolve outer x
      end
  end.

(** The names bound at the top level of server.js (their values are the
    modules, the app and the helpers; none of them is read by the chat
    handler's [catch] block). *)
Definition module_names : list jstring :=
  map str ["express"; "multer"; "cors"; "path"; "fs"; "spawn"; "app"; "PORT";
           "uploadsDir"; "instructorDataDir"; "findPythonCommand"; "PYTHON_CMD";
           "storage"; "upload"; "ADMIN_CREDENTIALS"; "runPythonScript"]%string.

Definition module_frame : frame := map (fun n => (n, JObj [])) module_names.

(** The bindings of the handler's own block: its parameters' destructured
    fields. *)
Definition chat_function_frame (message analysisData instructor conversationHistory : jsval)
  : frame :=
  [(str "message", message);
   (str "analysisData", analysisData);
   (str "instructor", instructor);
   (str "conversationHistory", conversationHistory)].

(** [(v || []).map((area, i) => `${i + 1}. ${area}`).join('\n')] *)
Definition numbered_block (v : jsval) : completion jstring :=
  match array_method (js_or v (JArr [])) (str "map") with
  | inl items => inl (join nl (numbered 0 items))
  | inr e => inr e
  end.

(** The prompt built from the summary. *)
Definition chat_context (instructor summary : jsval) : completion jstring :=
  match numbered_block (opt_prop summary (str "top_praise_areas")) with
  | inr e => inr e
  | inl praise =>
      match numbered_block (opt_prop summary (str "improvement_areas")) with
      | inr e => inr e
      | inl improve =>
          match array_method (js_or (opt_prop summary (str "recommendations")) (JArr []))
                  (str "join") with
          | inr e => inr e
          | inl recs =>
              let figure k := to_string (js_or (opt_prop summary (str k)) (JNum 0)) in
              inl (str "You are an AI teaching assistant helping "
                   ++ to_string (js_or instructor (JStr (str "an instructor")))
                   ++ str " understand their student feedback." ++ nl ++ nl
                   ++ str "FEEDBACK ANALYSIS SUMMARY:" ++ nl
                   ++ str "- Total Responses: " ++ figure "total_responses"%string ++ nl
                   ++ str "- Average Rating: " ++ figure "average_rating"%string ++ str "/5" ++ nl
                   ++ str "- Positive Sentiment: " ++ figure "avg_sentiment_percentage"%string
                   ++ str "%" ++ nl
                   ++ str "- Key Themes: " ++ figure "key_themes_count"%string ++ nl ++ nl
                   ++ str "TOP PRAISE AREAS:" ++ nl ++ praise ++ nl ++ nl
                   ++ str "AREAS FOR IMPROVEMENT:" ++ nl ++ improve ++ nl ++ nl
                   ++ str "RECOMMENDATIONS:" ++ nl ++ join_values nl recs ++ nl ++ nl
                   ++ str "Based on this feedback analysis, provide helpful, actionable advice to the instructor. Be specific, supportive, and focused on practical improvements.")
          end
      end
  end.

Definition chat_message (role : jstring) (content : jsval) : jsval :=
  JObj [(str "role", JStr role); (str "content", content)].

(** [conversationHistory.slice(-4).map(msg => ({ role, content }))] *)
Fixpoint history_messages (items : list jsval) : completion (list jsval) :=
  match items with
  | [] => inl []
  | msg :: rest =>
      match prop msg (str "role") with
      | inr e => inr e
      | inl role =>
          match history_messages rest with
          | inr e => inr e
          | inl more =>
              inl (chat_message
                     (if strict_eq_str role (str "assistant") then str "assistant"
                      else str "user")
                     (opt_prop msg (str "content")) :: more)
          end
      end
  end.

Definition anthropic_url : jstring := str "https://api.anthropic.com/v1/messages".

(** The [try] block of the chat handler.  [summary] is declared here, with
    [const], and so belongs to this block only. *)
Definition chat_try (message analysisData instructor conversationHistory : jsval)
  : M response :=
  let summary := js_or (opt_prop analysisData (str "summary")) (JObj []) in
  context <- lift (chat_context instructor summary) ;;
  history <- lift (array_method conversationHistory (str "slice")) ;;
  recent <- lift (history_messages (slice_last 4 history)) ;;
  let request_body :=
    JObj [(str "model", JStr (str "claude-3-5-sonnet-20241022"));
          (str "max_tokens", JNum 1024);
          (str "messages",
           JArr ([chat_message (str "user") (JStr context)]
                 ++ recent
                 ++ [chat_message (str "user") message]))] in
  aiData <- lift (fetch_json anthropic_url request_body) ;;
  content <- lift (prop aiData (str "content")) ;;
  first <- (if truthy content then lift (index0 content) else ret content) ;;
  if truthy first then
    text <- lift (prop first (str "text")) ;;
    ret (send_json 200 (JObj [(str "success", JBool true); (str "response", text)]))
  else throw (Error (str "Invalid response from AI")).

(** [v >= 4] on the numbers of the model; [undefined] compares false. *)
Definition at_least_4 (v : jsval) : bool :=
  match v with
  | JNum n => (4 <=? n)%Z
  | _ => false
  end.

(** [(v || []).slice(0, 3).join(', ')] *)
Definition first_three (v : jsval) : completion jstring :=
  match array_method (js_or v (JArr [])) (str "slice") with
  | inl items => inl (join_values (str ", ") (slice_first 3 items))
  | inr e => inr e
  end.

(** The [catch] block of the chat handler, run in the environment [env] of
    that block: every use of [summary] and [message] is resolved there. *)
Definition chat_catch (env : list frame) (err : jsval) : M response :=
  summary <- lift (resolve env (str "summary")) ;;
  praise <- lift (prop summary (str "top_praise_areas")) ;;
  improve <- lift (prop summary (str "improvement_areas")) ;;
  let praise0 := js_or (opt_index praise 0) in
  let improve0 := js_or (opt_index improve 0) in
  let teaching :=
    str "Based on the feedback, students appreciate "
    ++ to_string (praise0 (JStr (str "your teaching approach")))
    ++ str ". Consider focusing on "
    ++ to_string (improve0 (JStr (str "interactive activities")))
    ++ str " to enhance engagement further." in
  improve3 <- lift (first_three improve) ;;
  let improvement :=
    str "Key areas for improvement include: " ++ improve3
    ++ str ". I recommend creating an action plan to address these points systematically." in
  praise3 <- lift (first_three praise) ;;
  let positive :=
    str "Students particularly praised: " ++ praise3
    ++ str ". These are your strengths - continue building on them!" in
  rating_v <- lift (prop summary (str "average_rating")) ;;
  sentiment_v <- lift (prop summary (str "avg_sentiment_percentage")) ;;
  let rating :=
    str "Your average rating is " ++ to_string rating_v ++ str "/5 with "
    ++ to_string sentiment_v ++ str "% positive sentiment. "
    ++ (if at_least_4 rating_v then str "This is excellent!"
        else str "There is room for improvement in key areas.") in
  total_v <- lift (prop summary (str "total_responses")) ;;
  let default :=
    str "I can help you understand your feedback better. You have "
    ++ to_string total_v ++ str " responses with an average rating of "
    ++ to_string rating_v ++ str "/5. Your strengths include "
    ++ to_string (praise0 (JStr (str "clear teaching")))
    ++ str ", and students suggest improving "
    ++ to_string (improve0 (JStr (str "course materials"))) ++ str "." in
  message <- lift (resolve env (str "message")) ;;
  text <- lift (string_method message (str "toLowerCase")) ;;
  let lowerMessage := toLowerCase text in
  let has k := includes (str k) lowerMessage in
  let response :=
    if has "teaching"%string || has "style"%string then teaching
    else if has "improve"%string || has "better"%string then improvement
    else if has "positive"%string || has "good"%string || has "strength"%string then positive
    else if has "rating"%string || has "score"%string then rating
    else default in
  ret (send_json 200 (JObj [(str "success", JBool true); (str "response", JStr response)])).

Definition chat_handler (req : request) : M response :=
  message <- lift (prop (req_body req) (str "message")) ;;
  analysisData <- lift (prop (req_body req) (str "analysisData")) ;;
  instructor <- lift (prop (req_body req) (str "instructor")) ;;
  conversationHistory <- lift (prop (req_body req) (str "conversationHistory")) ;;
  if negb (truthy message) then
    ret (failure 400 (JStr (str "No message provided")))
  else
    let function_frame :=
      chat_function_frame message analysisData instructor conversationHistory in
    try_catch
      (chat_try message analysisData instructor conversationHistory)
      (fun err => chat_catch [[(str "err", err)]; function_frame; module_frame] err).

(** ** Express: the stack of layers and how a request walks it *)

(** What a middleware or handler does with a request: hand it on ([next()])
    or answer it. *)
Inductive step : Type :=
| Next (req : request)
| Respond (res : response).

(** A function registered on a route.  A synchronous one that throws (or
    calls [next(err)]) hands the error to the error handlers; the promise of
    an [async] one that throws is rejected with nobody listening. *)
Record middleware : Type := mkMiddleware {
  mw_async : bool;
  mw_run : request -> M step
}.

Inductive layer : Type :=
| Route (method : http_method) (url : jstring) (chain : list middleware)
| ErrorHandler (handle : jsval -> request -> M response).

(** How a request ends. *)
Inductive outcome : Type :=
| Sent (res : response)            (* a response was written *)
| Rejected (e : jsval)             (* an async handler threw: no response *)
| DefaultError (e : jsval)         (* Express's own handler answers 500 *)
| NotFound.                        (* Express's own 404 *)

Inductive chain_result : Type :=
| ChainNext (req : request)
| ChainSent (res : response)
| ChainError (e : jsval)
| ChainRejected (e : jsval).

Fixpoint run_chain (chain : list middleware) (req : request) (w : world)
  : chain_result * world :=
  match chain with
  | [] => (ChainNext req, w)
  | mw :: rest =>
      match mw_run mw req w with
      | (inl (Next req'), w') => run_chain rest req' w'
      | (inl (Respond res), w') => (ChainSent res, w')
      | (inr e, w') =>
          if mw_async mw then (ChainRejected e, w') else (ChainError e, w')
      end
  end.

(** The layers are tried in the order of registration (the path of the
    request is compared as it is).  While an error is pending only error
    handlers are considered, and only those registered after the layer that
    raised it. *)
Fixpoint dispatch (stack : list layer) (pending : option jsval)
    (req : request) (w : world) : outcome * world :=
  match stack with
  | [] =>
      match pending with
      | Some e => (DefaultError e, w)
      | None => (NotFound, w)
      end
  | Route method url chain :: rest =>
      match pending with
      | Some _ => dispatch rest pending req w
      | None =>
          if method_eqb (req_method req) method && eqb (req_url req) url then
            match run_chain chain req w with
            | (ChainNext req', w') => dispatch rest None req' w'
            | (ChainSent res, w') => (Sent res, w')
            | (ChainError e, w') => dispatch rest (Some e) req w'
            | (ChainRejected e, w') => (Rejected e, w')
            end
          else dispatch rest None req w
      end
  | ErrorHandler handle :: rest =>
      match pending with
      | None => dispatch rest None req w
      | Some e =>
          match handle e req w with
          | (inl res, w') => (Sent res, w')
          | (inr e', w') => dispatch rest (Some e') req w'
          end
      end
  end.

(** A handler that always answers. *)
Definition answering (is_async : bool) (h : request -> M response) : middleware :=
  mkMiddleware is_async (fun req => res <- h req ;; ret (Respond res)).

(** multer's middleware hands its errors to [next]. *)
Definition multer_middleware : middleware :=
  mkMiddleware false (fun req => req' <- upload_single req ;; ret (Next req')).

(** The routes and the error middleware of server.js, in the order in which
    the file registers them. *)
Definition app : list layer :=
  [ Route POST (str "/api/login") [answering false login_handler];
    Route POST (str "/api/upload") [multer_middleware; answering true upload_handler];
    Route POST (str "/api/analyze-instructor") [answering true analyze_handler];
    Route GET (str "/api/health") [answering true health_handler];
    Route POST (str "/api/download-report") [answering false report_handler];
    ErrorHandler error_middleware;
    Route POST (str "/api/upload") [multer_middleware; answering true upload_handler_2];
    Route POST (str "/api/download-csv") [answering false csv_handler];
    Route POST (str "/api/chat") [answering true chat_handler] ].

(** The server answering one request. *)
Definition serve (req : request) (w : world) : outcome * world :=
  dispatch app None req w.

End Server.

(** ** The splitting script *)

(** Modelled from the spec: extract_instructor_data.py is not among the
    sources.  The spec has it partition the rows of the uploaded CSV by the
    Instructor column and write one CSV per distinct instructor into the
    instructor-data directory, named after the instructor with spaces
    replaced by underscores and followed by the fixed suffix. *)
Definition normalized_id (instructor_name : jstring) : jstring :=
  replace_all_char space underscore instructor_name.

Definition split_filename (instructor_name : jstring) : jstring :=
  normalized_id instructor_name ++ suffix.

(** Modelled from the spec: the files present after the script has split a
    CSV whose Instructor column holds [column]; a file that was already there
    is overwritten in place. *)
Fixpoint write_all (ps : list jstring) (fs : list jstring) : list jstring :=
  match ps with
  | [] => fs
  | p :: ps' => write_all ps' (if mem p fs then fs else fs ++ [p])
  end.

Definition split_outputs (dir : jstring) (column : list jstring) : list jstring :=
  map (fun i => dir ++ [Path.slash] ++ split_filename i) column.

(** Modelled from the spec: a run of the splitting script on a CSV with the
    Instructor column [column]: it exits with code 0 and leaves its files. *)
Definition splitter (dir : jstring) (column : list jstring)
  : jstring -> list jstring -> list jstring -> proc_outcome * list jstring :=
  fun _ _ fs => (Closed (Some 0%Z) [] [], write_all (split_outputs dir column) fs).


(** Names without a slash. *)
Definition no_slash (s : jstring) : bool :=
  forallb (fun x => negb (ascii_eqb x Path.slash)) s.

(** ** Vocabulary of the statements *)

(** What the run of an async handler amounts to for the client. *)
Definition settle (r : completion response * world) : outcome * world :=
  match r with
  | (inl res, w) => (Sent res, w)
  | (inr e, w) => (Rejected e, w)
  end.

(** The path of the splitting script, as the upload handlers compute it. *)
Definition extract_script (dirname : jstring) : jstring :=
  Path.join_paths [dirname; str "extract_instructor_data.py"].

(** The path of the analysis script, as the analyze handler computes it. *)
Definition analyze_script (dirname : jstring) : jstring :=
  Path.join_paths [dirname; str "analyze.py"].

(** Where multer stores the part of an upload received in the world [w]. *)
Definition scratch_path (dirname : jstring) (w : world) (part : file_part) : jstring :=
  Path.join_paths [uploadsDir dirname; storage_filename w part].


(** The parameters of the server: the operating system, [JSON.parse] and the
    LLM service. *)
Definition os_model : Type :=
  jstring -> list jstring -> list jstring -> proc_outcome * list jstring.
Definition parser_model : Type := jstring -> completion jsval.
Definition llm_model : Type := jstring -> jsval -> completion jsval.

(** A request with a JSON body. *)
Definition post (url : string) (body : jsval) : request :=
  mkRequest POST (str url) body None None.

Definition get (url : string) : request :=
  mkRequest GET (str url) (JObj []) None None.

(** What a synchronous handler's run amounts to when the error middleware
    is still ahead in the stack. *)
Definition settle_sync (req : request) (r : completion response * world)
  : outcome * world :=
  match r with
  | (inl res, w) => (Sent res, w)
  | (inr e, w) =>
      match error_middleware e req w with
      | (inl res, w') => (Sent res, w')
      | (inr e', w') => (DefaultError e', w')
      end
  end.

(** What a synchronous handler's run amounts to when no error middleware
    is left in the stack. *)
Definition settle_last (r : completion response * world) : outcome * world :=
  match r with
  | (inl res, w) => (Sent res, w)
  | (inr e, w) => (DefaultError e, w)
  end.

(** An upload request as it reaches the server. *)
Definition upload_request (body : jsval) (part : option file_part) : request :=
  mkRequest POST (str "/api/upload") body part None.

(** The instructors listed by a response, when it is the success body of the
    upload endpoint. *)
Definition listed (instructors : list instructor) (o : outcome) : Prop :=
  o = Sent (upload_ok instructors).




(** ** Concrete situations *)

Module Scenario.

Definition dir : jstring := str "/srv/Backend".

(** A server directory with both scripts in place and nothing else. *)
Definition scripts : list jstring :=
  [str "/srv/Backend/extract_instructor_data.py"; str "/srv/Backend/analyze.py"].

(** The directories of the machine: the server directory, its parents, and
    the two directories the server makes at startup. *)
Definition directories : list jstring :=
  [str "/"; str "/srv"; str "/srv/Backend";
   str "/srv/Backend/uploads"; str "/srv/Backend/instructor_data"].

Definition world_with (python : option jstring) (fs : list jstring) : world :=
  mkWorld python fs directories [] 1700000000000%Z
    (str "2024-01-02T03:04:05.000Z") (str "1/2/2024, 3:04:05 AM") 123456789%Z.

(** Python found, scripts in place, no split file yet. *)
Definition fresh : world := world_with (Some (str "python3")) scripts.


(** Jane Doe's split file is on disk, and so is a scratch file left in the
    uploads directory. *)
Definition with_split_file : world :=
  world_with (Some (str "python3"))
    (scripts ++ [str "/srv/Backend/instructor_data/Jane_Doe_feedback.csv";
                 str "/srv/Backend/uploads/x.csv"]).

(** No runtime answered the version probe at startup. *)
Definition without_python : world := world_with None scripts.

(** A CSV upload as a browser sends it. *)
Definition csv_part : file_part := mkPart (str "all.csv") (str "text/csv") 2048%Z.

(** A text file. *)
Definition txt_part : file_part := mkPart (str "notes.txt") (str "text/plain") 2048%Z.

(** A [JSON.parse] that refuses every text. *)
Definition no_json : jstring -> completion jsval :=
  fun _ => inr (SyntaxError (str "Unexpected end of JSON input")).

(** An LLM service that cannot be reached. *)
Definition no_llm : jstring -> jsval -> completion jsval :=
  fun _ _ => inr (TypeError (str "fetch failed")).

(** An operating system on which no command does anything. *)
Definition idle_os : jstring -> list jstring -> list jstring -> proc_outcome * list jstring :=
  fun _ _ fs => (Closed (Some 0%Z) [] [], fs).

(** A process that prints something and exits with code 1. *)
Definition failing_os : jstring -> list jstring -> list jstring -> proc_outcome * list jstring :=
  fun _ _ fs => (Closed (Some 1%Z) (str "{...}") (str "Traceback"), fs).

(** A command that cannot be started. *)
Definition missing_os : jstring -> list jstring -> list jstring -> proc_outcome * list jstring :=
  fun _ _ fs => (SpawnFailed (str "spawn python3 ENOENT"), fs).

(** A [JSON.parse] that reads every text as one error report. *)
Definition error_json : jstring -> completion jsval :=
  fun _ => inl (JObj [(str "error", JStr (str "CSV has no Feedback column"))]).

End Scenario.


(** A path component that [path.normalize] leaves alone. *)
Definition plain_segment (s : jstring) : bool :=
  no_slash s && negb (eqb s []) && negb (eqb s (str ".")) && negb (eqb s (str "..")).

(** The absolute path with the components [segs]. *)
Definition abs_path (segs : list jstring) : jstring :=
  concat (map (fun s => Path.slash :: s) segs).


(** A computation that leaves the world as it found it. *)
Definition stateless {A : Type} (m : M A) : Prop :=
  forall w, snd (m w) = w.


(** The stack of server.js with the second registration of POST /api/upload
    taken out. *)
Definition app_without_second_upload (dirname : jstring) (os_run : os_model)
    (JSON_parse : parser_model) (fetch_json : llm_model) : list layer :=
  firstn 6 (app dirname os_run JSON_parse fetch_json)
  ++ skipn 7 (app dirname os_run JSON_parse fetch_json).


(** [file.replace('_feedback.csv', '')], the id both registrations derive
    from a file name. *)
Definition baseName (file : jstring) : jstring := replace_first suffix [] file.

(** A list of names in the order of the default sort. *)
Definition in_sort_order (xs : list jstring) : Prop :=
  Sorted (fun a b => leb a b = true) xs.


(** * Properties *)

Unset Implicit Arguments.

(** ** The primitives on small inputs *)

Example extname_examples :
  map Path.extname [str "all.csv"; str ".csv"; str "..csv"; str ".."; str "a.";
                    str "x/y.tar.gz/"; str "a.b/c"; str "notes.CSV"]
  = [str ".csv"; []; str ".csv"; []; str "."; str ".gz"; []; str ".CSV"].
Proof. reflexivity. Qed.

Example normalize_examples :
  map Path.normalize [str "/a/../../b/"; str "a/../.."; str "./"; str "/";
                      str "a//b/./c"; str "../a"]
  = [str "/b/"; str ".."; str "./"; str "/"; str "a/b/c"; str "../a"].
Proof. reflexivity. Qed.

Example join_paths_example :
  Path.join_paths [str "/srv/Backend/instructor_data"; str "../uploads/x.csv"]
  = str "/srv/Backend/uploads/x.csv".
Proof. reflexivity. Qed.

Example replace_first_example :
  replace_first suffix [] (str "x_feedback.csv_y_feedback.csv") = str "x_y_feedback.csv".
Proof. reflexivity. Qed.

Example replace_space_runs_example :
  replace_space_runs (str "_") (str "Jane  Q Doe ") = str "Jane_Q_Doe_".
Proof. reflexivity. Qed.

Example of_Z_examples : map of_Z [50%Z; 0%Z; (-3)%Z] = [str "50"; str "0"; str "-3"].
Proof. reflexivity. Qed.

Example js_sort_example :
  js_sort [str "b"; str "a"; str "B"; str "ab"] = [str "B"; str "a"; str "ab"; str "b"].
Proof. reflexivity. Qed.

Example entries_example :
  dedup (entries_under (str "/d") [str "/d/a.csv"; str "/d/sub/b.csv"; str "/e/c.csv";
                                   str "/d/sub/c.csv"; str "/dx"])
  = [str "a.csv"; str "sub"].
Proof. reflexivity. Qed.

Example splitter_example :
  snd (splitter (str "/d") [str "Jane Doe"; str "Bob"; str "Jane_Doe"] [] [] [str "/d/x"])
  = [str "/d/x"; str "/d/Jane_Doe_feedback.csv"; str "/d/Bob_feedback.csv"].
Proof. reflexivity. Qed.

(** ** Facts about strings and lists of names *)

Lemma ascii_eqb_true (a b : ascii) : ascii_eqb a b = true <-> a = b.
Proof. unfold ascii_eqb. apply Ascii.eqb_eq. Qed.

Lemma ascii_eqb_refl (a : ascii) : ascii_eqb a a = true.
Proof. apply ascii_eqb_true. reflexivity. Qed.

Lemma eqb_true (s t : jstring) : eqb s t = true <-> s = t.
Proof.
  revert t. induction s as [|a s IH]; intros [|b t]; simpl; split; intro H;
    try reflexivity; try discriminate.
  - apply andb_true_iff in H. destruct H as [Hab Hst].
    apply ascii_eqb_true in Hab. apply IH in Hst. congruence.
  - injection H as -> ->. rewrite ascii_eqb_refl. simpl. apply IH. reflexivity.
Qed.

Lemma eqb_refl (s : jstring) : eqb s s = true.
Proof. apply eqb_true. reflexivity. Qed.

Lemma eqb_false (s t : jstring) : eqb s t = false <-> s <> t.
Proof.
  split.
  - intros H E. apply eqb_true in E. congruence.
  - intro H. destruct (eqb s t) eqn:E; [|reflexivity].
    apply eqb_true in E. contradiction.
Qed.

Lemma mem_In (x : jstring) (xs : list jstring) : mem x xs = true <-> In x xs.
Proof.
  induction xs as [|y ys IH]; simpl.
  - split; [discriminate | contradiction].
  - rewrite orb_true_iff, IH, eqb_true. split; intros [H|H]; auto.
Qed.

Lemma mem_false (x : jstring) (xs : list jstring) : mem x xs = false <-> ~ In x xs.
Proof.
  rewrite <- mem_In. destruct (mem x xs); split; congruence.
Qed.

Lemma mem_app (x : jstring) (xs ys : list jstring) :
  mem x (xs ++ ys) = mem x xs || mem x ys.
Proof.
  induction xs as [|y xs IH]; simpl; [reflexivity|].
  rewrite IH. apply orb_assoc.
Qed.

Lemma remove_path_In (x y : jstring) (xs : list jstring) :
  In y (remove_path x xs) <-> In y xs /\ y <> x.
Proof.
  induction xs as [|z zs IH]; simpl.
  - tauto.
  - destruct (eqb x z) eqn:E.
    + apply eqb_true in E. subst z. rewrite IH. split.
      * intros [H1 H2]. auto.
      * intros [[H1|H1] H2]; [congruence | auto].
    + apply eqb_false in E. simpl. rewrite IH. split.
      * intros [H|[H1 H2]]; [subst; split; auto; congruence | auto].
      * intros [[H1|H1] H2]; auto.
Qed.

Lemma mem_remove_path (p : jstring) (fs : list jstring) : mem p (remove_path p fs) = false.
Proof.
  apply mem_false. rewrite remove_path_In. intros [_ H]. congruence.
Qed.

(** A regular file exists. *)
Lemma path_exists_file (p : jstring) (w : world) :
  mem p (files w) = true -> path_exists p w = true.
Proof. intro H. unfold path_exists. rewrite H. reflexivity. Qed.

(** Where no directory is, what exists is a regular file. *)
Lemma path_exists_no_dir (p : jstring) (w : world) :
  mem (dir_path p) (dirs w) = false -> path_exists p w = mem p (files w).
Proof. intro H. unfold path_exists. rewrite H. apply orb_false_r. Qed.

(** What does not exist is no regular file. *)
Lemma path_exists_false (p : jstring) (w : world) :
  path_exists p w = false -> mem p (files w) = false.
Proof. unfold path_exists. intro H. apply orb_false_iff in H. apply H. Qed.




Lemma startsWith_app (a b c : jstring) :
  startsWith (a ++ b) (a ++ c) = startsWith b c.
Proof.
  induction a as [|x a IH]; simpl; [reflexivity|].
  rewrite ascii_eqb_refl. simpl. assumption.
Qed.









Lemma includes_app_false (p a b : jstring) :
  includes p (a ++ b) = false -> includes p b = false.
Proof.
  induction a as [|c a IH]; simpl; [auto|].
  intro H. apply orb_false_iff in H. destruct H as [_ H]. auto.
Qed.

Lemma split_char_plain (c : ascii) (s : jstring) :
  forallb (fun x => negb (ascii_eqb x c)) s = true -> split_char c s = [s].
Proof.
  induction s as [|x s IH]; simpl; intro H; [reflexivity|].
  apply andb_true_iff in H. destruct H as [Hx Hs].
  apply negb_true_iff in Hx. rewrite Hx, (IH Hs). reflexivity.
Qed.

Lemma replace_first_here (pat rep s : jstring) :
  startsWith pat s = true -> replace_first pat rep s = rep ++ skipn (length pat) s.
Proof. intro H. destruct s; simpl; rewrite H; reflexivity. Qed.






Lemma app_suffix_inj (a b : jstring) : a ++ suffix = b ++ suffix -> a = b.
Proof. apply app_inv_tail. Qed.

Lemma no_slash_app (a b : jstring) : no_slash (a ++ b) = no_slash a && no_slash b.
Proof. apply forallb_app. Qed.





(** ** How the stack routes each endpoint *)

(** An upload goes through multer and then the first registration; a multer
    error goes to the error middleware. *)
Lemma serve_upload (dirname : jstring) (os_run : os_model)
    (JSON_parse : parser_model) (fetch_json : llm_model)
    (body : jsval) (part : option file_part) (w : world) :
  let req := upload_request body part in
  serve dirname os_run JSON_parse fetch_json req w =
  match upload_single dirname req w with
  | (inl req', w1) => settle (upload_handler dirname os_run req' w1)
  | (inr e, w1) =>
      match error_middleware e req w1 with
      | (inl res, w2) => (Sent res, w2)
      | (inr e', w2) => (DefaultError e', w2)
      end
  end.
Proof.
  intro req. unfold serve, app.
  cbn [dispatch]. change (method_eqb (req_method req) POST) with true.
  change (eqb (req_url req) (str "/api/login")) with false.
  change (eqb (req_url req) (str "/api/upload")) with true.
  cbn [andb run_chain multer_middleware mw_run mw_async answering].
  unfold bind at 1.
  destruct (upload_single dirname req w) as [[req'|e] w1].
  - cbn [ret]. unfold bind at 1.
    destruct (upload_handler dirname os_run req' w1) as [[res|e] w2]; reflexivity.
  - cbn [dispatch]. destruct (error_middleware e req w1) as [[res|e'] w2]; reflexivity.
Qed.

Lemma stored_files (p : jstring) (w : world) :
  files (stored p w) = if mem p (files w) then files w else files w ++ [p].
Proof. unfold stored. destruct (mem p (files w)); reflexivity. Qed.

Lemma stored_files_mem (p : jstring) (w : world) : mem p (files (stored p w)) = true.
Proof.
  rewrite stored_files. destruct (mem p (files w)) eqn:E; [exact E|].
  rewrite mem_app. simpl. rewrite eqb_refl.
  rewrite orb_true_r. reflexivity.
Qed.

Lemma stored_files_keep (p q : jstring) (w : world) :
  mem q (files w) = true -> mem q (files (stored p w)) = true.
Proof.
  intro H. rewrite stored_files. destruct (mem p (files w)); [exact H|].
  rewrite mem_app, H. reflexivity.
Qed.


Lemma stored_dirs (p : jstring) (w : world) :
  mem (dir_path p) (dirs (stored p w)) = false.
Proof. unfold stored. cbn [dirs set_dirs]. apply mem_remove_path. Qed.

Lemma stored_PYTHON_CMD (p : jstring) (w : world) :
  PYTHON_CMD (stored p w) = PYTHON_CMD w.
Proof. unfold stored. destruct (mem p (files w)); reflexivity. Qed.

Lemma stored_spawned (p : jstring) (w : world) : spawned (stored p w) = spawned w.
Proof. unfold stored. destruct (mem p (files w)); reflexivity. Qed.

(** multer accepts a part that passes the filter and the size limit: the part
    is stored and described in [req.file]. *)
Lemma upload_single_accepts (dirname : jstring)
    (req : request) (part : file_part) (w : world) :
  req_part req = Some part ->
  fileFilter part = inl true ->
  (part_size part <= fileSize_limit)%Z ->
  upload_single dirname req w =
  (inl (with_file req part (scratch_path dirname w part)),
   stored (scratch_path dirname w part) w).
Proof.
  intros Hpart Hfilter Hsize.
  unfold upload_single. rewrite Hpart. fold (scratch_path dirname w part).
  unfold bind, lift, get_world, writeFile, ret. rewrite Hfilter.
  replace (fileSize_limit <? part_size part)%Z with false
    by (symmetry; apply Z.ltb_ge; exact Hsize).
  reflexivity.
Qed.


(** ** The listing the upload handlers work from *)







(** ** C1: one entry per instructor *)




Lemma serve_analyze (dirname : jstring) (os_run : os_model)
    (JSON_parse : parser_model) (fetch_json : llm_model) (body : jsval) (w : world) :
  let req := post "/api/analyze-instructor" body in
  serve dirname os_run JSON_parse fetch_json req w
  = settle (analyze_handler dirname os_run JSON_parse req w).
Proof.
  intro req. unfold serve, app.
  cbn [dispatch]. change (method_eqb (req_method req) POST) with true.
  change (eqb (req_url req) (str "/api/login")) with false.
  change (eqb (req_url req) (str "/api/upload")) with false.
  change (eqb (req_url req) (str "/api/analyze-instructor")) with true.
  cbn [andb run_chain mw_run mw_async answering].
  unfold bind at 1.
  destruct (analyze_handler dirname os_run JSON_parse req w) as [[res|e] w1]; reflexivity.
Qed.

Lemma serve_health (dirname : jstring) (os_run : os_model)
    (JSON_parse : parser_model) (fetch_json : llm_model) (w : world) :
  let req := get "/api/health" in
  serve dirname os_run JSON_parse fetch_json req w
  = settle (health_handler os_run req w).
Proof.
  intro req. unfold serve, app.
  cbn [dispatch]. change (method_eqb (req_method req) POST) with false.
  change (method_eqb (req_method req) GET) with true.
  change (eqb (req_url req) (str "/api/health")) with true.
  cbn [andb run_chain mw_run mw_async answering].
  unfold bind at 1.
  destruct (health_handler os_run req w) as [[res|e] w1]; reflexivity.
Qed.

Lemma serve_report (dirname : jstring) (os_run : os_model)
    (JSON_parse : parser_model) (fetch_json : llm_model) (body : jsval) (w : world) :
  let req := post "/api/download-report" body in
  serve dirname os_run JSON_parse fetch_json req w
  = settle_sync req (report_handler req w).
Proof.
  intro req. unfold serve, app.
  cbn [dispatch]. change (method_eqb (req_method req) POST) with true.
  change (method_eqb (req_method req) GET) with false.
  change (eqb (req_url req) (str "/api/login")) with false.
  change (eqb (req_url req) (str "/api/upload")) with false.
  change (eqb (req_url req) (str "/api/analyze-instructor")) with false.
  change (eqb (req_url req) (str "/api/download-report")) with true.
  cbn [andb run_chain mw_run mw_async answering].
  unfold bind at 1. unfold settle_sync.
  destruct (report_handler req w) as [[res|e] w1]; [reflexivity|].
  cbn [dispatch]. destruct (error_middleware e req w1) as [[res|e'] w2]; reflexivity.
Qed.

Lemma serve_csv (dirname : jstring) (os_run : os_model)
    (JSON_parse : parser_model) (fetch_json : llm_model) (body : jsval) (w : world) :
  let req := post "/api/download-csv" body in
  serve dirname os_run JSON_parse fetch_json req w
  = settle_last (csv_handler req w).
Proof.
  intro req. unfold serve, app.
  cbn [dispatch]. change (method_eqb (req_method req) POST) with true.
  change (method_eqb (req_method req) GET) with false.
  change (eqb (req_url req) (str "/api/login")) with false.
  change (eqb (req_url req) (str "/api/upload")) with false.
  change (eqb (req_url req) (str "/api/analyze-instructor")) with false.
  change (eqb (req_url req) (str "/api/download-report")) with false.
  change (eqb (req_url req) (str "/api/download-csv")) with true.
  cbn [andb run_chain mw_run mw_async answering].
  unfold bind at 1. unfold settle_last.
  destruct (csv_handler req w) as [[res|e] w1]; reflexivity.
Qed.

Lemma serve_chat (dirname : jstring) (os_run : os_model)
    (JSON_parse : parser_model) (fetch_json : llm_model) (body : jsval) (w : world) :
  let req := post "/api/chat" body in
  serve dirname os_run JSON_parse fetch_json req w
  = settle (chat_handler fetch_json req w).
Proof.
  intro req. unfold serve, app.
  cbn [dispatch]. change (method_eqb (req_method req) POST) with true.
  change (method_eqb (req_method req) GET) with false.
  change (eqb (req_url req) (str "/api/login")) with false.
  change (eqb (req_url req) (str "/api/upload")) with false.
  change (eqb (req_url req) (str "/api/analyze-instructor")) with false.
  change (eqb (req_url req) (str "/api/download-report")) with false.
  change (eqb (req_url req) (str "/api/download-csv")) with false.
  change (eqb (req_url req) (str "/api/chat")) with true.
  cbn [andb run_chain mw_run mw_async answering].
  unfold bind at 1.
  destruct (chat_handler fetch_json req w) as [[res|e] w1]; reflexivity.
Qed.

Lemma serve_login (dirname : jstring) (os_run : os_model)
    (JSON_parse : parser_model) (fetch_json : llm_model) (body : jsval) (w : world) :
  let req := post "/api/login" body in
  serve dirname os_run JSON_parse fetch_json req w
  = settle_sync req (login_handler req w).
Proof.
  intro req. unfold serve, app.
  cbn [dispatch]. change (method_eqb (req_method req) POST) with true.
  change (eqb (req_url req) (str "/api/login")) with true.
  cbn [andb run_chain mw_run mw_async answering].
  unfold bind at 1. unfold settle_sync.
  destruct (login_handler req w) as [[res|e] w1]; [reflexivity|].
  cbn [dispatch]. destruct (error_middleware e req w1) as [[res|e'] w2]; reflexivity.
Qed.

(** ** The analyze endpoint *)

(** The guards of the analyze handler, passed one after the other. *)
Lemma analyze_handler_guards (dirname : jstring) (os_run : os_model)
    (JSON_parse : parser_model) (req : request) (w : world) (f py : jstring) :
  prop (req_body req) (str "filename") = inl (JStr f) ->
  f <> [] ->
  PYTHON_CMD w = Some py ->
  analyze_handler dirname os_run JSON_parse req w =
  let target := Path.join_paths [instructorDataDir dirname; f] in
  if negb (path_exists target w) then
    (inl (failure 404 (JStr (str "Instructor file not found"))), w)
  else if negb (path_exists (analyze_script dirname) w) then
    (inl (failure 500 (JStr (str "analyze.py not found in server directory."))), w)
  else
    try_catch
      (output <- runPythonScript os_run (analyze_script dirname) [target] ;;
       result <- lift (JSON_parse output) ;;
       e <- lift (prop result (str "error")) ;;
       if truthy e then ret (failure 400 e)
       else ret (analyze_ok result (JStr f)))
      (analyze_catch JSON_parse) w.
Proof.
  intros Hname Hf Hpy. unfold analyze_handler.
  unfold bind at 1. unfold lift at 1. rewrite Hname.
  destruct f as [|c f]; [contradiction|]. cbn [truthy negb].
  unfold bind at 1. unfold get_world at 1. rewrite Hpy.
  unfold bind at 1. unfold lift at 1. cbn [join_instructor_path].
  unfold bind at 1. unfold existsSync at 1.
  cbv zeta.
  match goal with
  | |- context [negb (path_exists ?p w)] => destruct (path_exists p w)
  end; cbn [negb]; [|reflexivity].
  unfold bind at 1. unfold existsSync at 1. fold (analyze_script dirname).
  destruct (path_exists (analyze_script dirname) w); reflexivity.
Qed.

(** [fs.existsSync] is true of a directory: a filename that leads to the
    instructor-data directory itself passes the guard, and the script is
    started on the directory. *)
Example analyze_of_the_data_directory :
  spawned (snd (serve Scenario.dir Scenario.idle_os Scenario.no_json Scenario.no_llm
                  (post "/api/analyze-instructor"
                     (JObj [(str "filename", JStr (str "."))]))
                  Scenario.fresh))
  = [(str "python3",
      [str "/srv/Backend/analyze.py"; str "/srv/Backend/instructor_data"])].
Proof. vm_compute. reflexivity. Qed.

(** C5, as stated, fails: while no runtime command is cached, a request for
    a file that does not exist is answered 500, not 404. *)
Lemma analyze_missing_file_without_python :
  fst (serve Scenario.dir Scenario.idle_os Scenario.no_json Scenario.no_llm
         (post "/api/analyze-instructor"
            (JObj [(str "filename", JStr (str "Ghost_feedback.csv"))]))
         Scenario.without_python)
  = Sent (failure 500 (JStr python_missing)).
Proof. vm_compute. reflexivity. Qed.

(** C5, amended: a request whose filename is a string, joined to the
    instructor-data directory, leads to a path at which nothing exists,
    neither a regular file nor a directory, never spawns a process; when in
    addition the filename is not empty and a runtime command is cached, the
    answer is 404. *)
Theorem analyze_missing_file (dirname : jstring) (os_run : os_model)
    (JSON_parse : parser_model) (fetch_json : llm_model)
    (body : jsval) (f : jstring) (w : world) :
  prop body (str "filename") = inl (JStr f) ->
  path_exists (Path.join_paths [instructorDataDir dirname; f]) w = false ->
  let answer := serve dirname os_run JSON_parse fetch_json
                  (post "/api/analyze-instructor" body) w in
  spawned (snd answer) = spawned w /\
  (f <> [] -> PYTHON_CMD w <> None ->
   fst answer = Sent (failure 404 (JStr (str "Instructor file not found")))).
Proof.
  intros Hname Hmissing answer. subst answer. rewrite serve_analyze. cbv zeta.
  destruct f as [|c f].
  - split; [|intro H; contradiction].
    unfold analyze_handler, bind, lift. cbn [req_body post]. rewrite Hname. reflexivity.
  - destruct (PYTHON_CMD w) as [py|] eqn:Hpy.
    + rewrite (analyze_handler_guards dirname os_run JSON_parse
                 (post "/api/analyze-instructor" body) w (c :: f) py Hname
                 ltac:(discriminate) Hpy).
      cbv zeta. rewrite Hmissing. cbn [negb settle fst snd]. auto.
    + split; [|intros _ H; contradiction].
      unfold analyze_handler, bind, lift, get_world. cbn [req_body post].
      rewrite Hname. cbn [truthy negb]. rewrite Hpy. reflexivity.
Qed.

(** The amended C5 on a concrete request. *)
Lemma analyze_missing_file_witness :
  let answer := serve Scenario.dir Scenario.idle_os Scenario.no_json Scenario.no_llm
                  (post "/api/analyze-instructor"
                     (JObj [(str "filename", JStr (str "Ghost_feedback.csv"))]))
                  Scenario.fresh in
  spawned (snd answer) = [] /\
  fst answer = Sent (failure 404 (JStr (str "Instructor file not found"))).
Proof.
  destruct (analyze_missing_file Scenario.dir Scenario.idle_os Scenario.no_json
              Scenario.no_llm
              (JObj [(str "filename", JStr (str "Ghost_feedback.csv"))])
              (str "Ghost_feedback.csv") Scenario.fresh eq_refl eq_refl) as [H1 H2].
  split; [exact H1 | apply H2; discriminate].
Defined.

(** C6, as stated, fails: the process exits 0 and prints a JSON object that
    carries an [error] field holding the empty string; the endpoint answers
    200 with [success: true], not 400. *)
Lemma analyze_ignores_empty_error :
  fst (serve Scenario.dir Scenario.idle_os
         (fun _ => inl (JObj [(str "error", JStr [])])) Scenario.no_llm
         (post "/api/analyze-instructor"
            (JObj [(str "filename", JStr (str "Jane_Doe_feedback.csv"))]))
         Scenario.with_split_file)
  = Sent (analyze_ok (JObj [(str "error", JStr [])])
            (JStr (str "Jane_Doe_feedback.csv"))).
Proof. vm_compute. reflexivity. Qed.

(** C6, amended: when the analysis process exits 0 and its stdout parses to
    a value other than [null], the endpoint answers 400 with [success: false]
    and the value of the [error] property if that value is truthy; if the
    property is absent or falsy it answers 200 with [success: true], the
    parsed result and the echoed filename. *)
Theorem analyze_relays_result (dirname : jstring) (os_run : os_model)
    (JSON_parse : parser_model) (fetch_json : llm_model)
    (body : jsval) (f py out err : jstring) (fs' : list jstring)
    (result e : jsval) (w : world) :
  prop body (str "filename") = inl (JStr f) ->
  f <> [] ->
  PYTHON_CMD w = Some py ->
  mem (Path.join_paths [instructorDataDir dirname; f]) (files w) = true ->
  mem (analyze_script dirname) (files w) = true ->
  os_run py [analyze_script dirname; Path.join_paths [instructorDataDir dirname; f]]
    (files w) = (Closed (Some 0%Z) out err, fs') ->
  JSON_parse out = inl result ->
  prop result (str "error") = inl e ->
  fst (serve dirname os_run JSON_parse fetch_json
         (post "/api/analyze-instructor" body) w)
  = Sent (if truthy e then failure 400 e else analyze_ok result (JStr f)).
Proof.
  intros Hname Hf Hpy Hfile Hscript Hrun Hparse Herr.
  rewrite serve_analyze. cbv zeta.
  rewrite (analyze_handler_guards dirname os_run JSON_parse
             (post "/api/analyze-instructor" body) w f py Hname Hf Hpy).
  cbv zeta. rewrite (path_exists_file _ _ Hfile), (path_exists_file _ _ Hscript).
  cbn [negb].
  unfold try_catch, bind, runPythonScript, get_world, spawn, bind, lift.
  rewrite Hpy, Hrun. cbn [code_is_zero Z.eqb negb ret].
  rewrite Hparse, Herr.
  destruct (truthy e); reflexivity.
Qed.

(** The amended C6 on two concrete runs: a result with a message in [error],
    and a result without the property. *)
Lemma analyze_relays_result_witness :
  fst (serve Scenario.dir Scenario.idle_os
         (fun _ => inl (JObj [(str "error", JStr (str "Empty CSV"))])) Scenario.no_llm
         (post "/api/analyze-instructor"
            (JObj [(str "filename", JStr (str "Jane_Doe_feedback.csv"))]))
         Scenario.with_split_file)
  = Sent (failure 400 (JStr (str "Empty CSV")))
  /\
  fst (serve Scenario.dir Scenario.idle_os
         (fun _ => inl (JObj [(str "summary", JObj [])])) Scenario.no_llm
         (post "/api/analyze-instructor"
            (JObj [(str "filename", JStr (str "Jane_Doe_feedback.csv"))]))
         Scenario.with_split_file)
  = Sent (analyze_ok (JObj [(str "summary", JObj [])])
            (JStr (str "Jane_Doe_feedback.csv"))).
Proof.
  split.
  - apply (analyze_relays_result Scenario.dir Scenario.idle_os _ Scenario.no_llm
             _ (str "Jane_Doe_feedback.csv") (str "python3") [] []
             (files Scenario.with_split_file)
             (JObj [(str "error", JStr (str "Empty CSV"))]) (JStr (str "Empty CSV"))
             Scenario.with_split_file);
      solve [reflexivity | discriminate].
  - apply (analyze_relays_result Scenario.dir Scenario.idle_os _ Scenario.no_llm
             _ (str "Jane_Doe_feedback.csv") (str "python3") [] []
             (files Scenario.with_split_file)
             (JObj [(str "summary", JObj [])]) JUndefined
             Scenario.with_split_file);
      solve [reflexivity | discriminate].
Defined.

(** ** C8: the state without a runtime command *)

(** C8, as stated, fails: while no runtime command is cached, an upload
    request that carries no file is answered 400, not 500. *)
Lemma upload_without_file_without_python :
  fst (serve Scenario.dir Scenario.idle_os Scenario.no_json Scenario.no_llm
         (upload_request (JObj []) None) Scenario.without_python)
  = Sent (failure 400 (JStr (str "No file uploaded"))).
Proof. vm_compute. reflexivity. Qed.

(** C8, amended: while the cached runtime command is null, the health
    endpoint reports [python_available: false], and every upload request
    whose file multer accepts and every analyze-instructor request with a
    truthy filename is answered 500 with one and the same message. *)
Theorem python_missing_everywhere (dirname : jstring) (os_run : os_model)
    (JSON_parse : parser_model) (fetch_json : llm_model) (w : world) :
  PYTHON_CMD w = None ->
  fst (serve dirname os_run JSON_parse fetch_json (get "/api/health") w)
  = Sent (send_json 200
            (JObj [(str "status", JStr (str "warning"));
                   (str "timestamp", JStr (clock_iso w));
                   (str "python_available", JBool false);
                   (str "python_version", JStr (str "Not found"));
                   (str "message", JStr (str "Python is not installed or not in PATH"))]))
  /\
  (forall (body : jsval) (part : file_part),
     fileFilter part = inl true ->
     (part_size part <= fileSize_limit)%Z ->
     fst (serve dirname os_run JSON_parse fetch_json
            (upload_request body (Some part)) w)
     = Sent (failure 500 (JStr python_missing)))
  /\
  (forall (body filename : jsval),
     prop body (str "filename") = inl filename ->
     truthy filename = true ->
     fst (serve dirname os_run JSON_parse fetch_json
            (post "/api/analyze-instructor" body) w)
     = Sent (failure 500 (JStr python_missing))).
Proof.
  intro Hpy. split; [|split].
  - rewrite serve_health. cbv zeta.
    unfold health_handler, bind, get_world. rewrite Hpy. reflexivity.
  - intros body part Hfilter Hsize.
    rewrite serve_upload. cbv zeta.
    rewrite (upload_single_accepts dirname (upload_request body (Some part)) part w
               eq_refl Hfilter Hsize).
    unfold upload_handler. cbn [req_file with_file path].
    unfold bind, get_world, unlinkSync.
    rewrite (stored_PYTHON_CMD (scratch_path dirname w part) w), Hpy.
    rewrite (stored_files_mem (scratch_path dirname w part) w). reflexivity.
  - intros body filename Hname Htruthy.
    rewrite serve_analyze. cbv zeta.
    unfold analyze_handler, bind, lift, get_world. cbn [req_body post].
    rewrite Hname, Htruthy. cbn [negb]. cbv beta. rewrite Hpy. reflexivity.
Qed.

(** The amended C8 in a concrete state without Python. *)
Lemma python_missing_everywhere_witness :
  (exists v,
     fst (serve Scenario.dir Scenario.idle_os Scenario.no_json Scenario.no_llm
            (get "/api/health") Scenario.without_python) = Sent (send_json 200 v)
     /\ opt_prop v (str "python_available") = JBool false)
  /\
  fst (serve Scenario.dir Scenario.idle_os Scenario.no_json Scenario.no_llm
         (upload_request (JObj []) (Some Scenario.csv_part)) Scenario.without_python)
  = Sent (failure 500 (JStr python_missing))
  /\
  fst (serve Scenario.dir Scenario.idle_os Scenario.no_json Scenario.no_llm
         (post "/api/analyze-instructor"
            (JObj [(str "filename", JStr (str "Jane_Doe_feedback.csv"))]))
         Scenario.without_python)
  = Sent (failure 500 (JStr python_missing)).
Proof.
  destruct (python_missing_everywhere Scenario.dir Scenario.idle_os Scenario.no_json
              Scenario.no_llm Scenario.without_python eq_refl) as [Hhealth [Hup Han]].
  split; [|split].
  - eexists. split; [exact Hhealth | reflexivity].
  - apply Hup; [reflexivity | vm_compute; discriminate].
  - apply (Han _ (JStr (str "Jane_Doe_feedback.csv"))); reflexivity.
Defined.

(** ** C7: a file that is not a CSV *)

(** C7: a part whose MIME type is not text/csv and whose name does not end in
    .csv is refused by the filter, and the error middleware answers with
    status 500 (a server error, where the claim has a client error); the
    world is left as it was, so no process has been spawned. *)
Theorem upload_text_file_answered_500 :
  serve Scenario.dir Scenario.idle_os Scenario.no_json Scenario.no_llm
    (upload_request (JObj []) (Some Scenario.txt_part)) Scenario.fresh
  = (Sent (failure 500 (JStr (str "Only CSV files are allowed!"))), Scenario.fresh).
Proof. vm_compute. reflexivity. Qed.

(** ** C3: the chat fallback *)

(** C3: with the LLM service out of reach, a chat request does not get the
    canned answer: the [catch] block reads [summary], a constant of the [try]
    block, the read throws a ReferenceError and the handler's promise is
    rejected without a response. *)
Theorem chat_fallback_throws :
  fst (serve Scenario.dir Scenario.idle_os Scenario.no_json Scenario.no_llm
         (post "/api/chat"
            (JObj [(str "message", JStr (str "How can I improve my rating?"));
                   (str "analysisData",
                    JObj [(str "summary",
                           JObj [(str "total_responses", JNum 12);
                                 (str "average_rating", JNum 4);
                                 (str "improvement_areas",
                                  JArr [JStr (str "pace")])])]);
                   (str "instructor", JStr (str "Jane Doe"));
                   (str "conversationHistory", JArr [])]))
         Scenario.fresh)
  = Rejected (ReferenceError (str "summary is not defined")).
Proof. vm_compute. reflexivity. Qed.

(** ** C4: downloads of an empty summary *)

(** C4: given an empty summary object, download-report throws on the first
    list it iterates (answered 500 by the error middleware), and
    download-csv prints the absent numeric fields as the text "undefined". *)
Theorem downloads_of_empty_summary :
  fst (serve Scenario.dir Scenario.idle_os Scenario.no_json Scenario.no_llm
         (post "/api/download-report"
            (JObj [(str "data", JObj [(str "summary", JObj [])])]))
         Scenario.fresh)
  = Sent (failure 500
            (JStr (str "Cannot read properties of undefined (reading 'forEach')")))
  /\
  fst (serve Scenario.dir Scenario.idle_os Scenario.no_json Scenario.no_llm
         (post "/api/download-csv"
            (JObj [(str "data", JObj [(str "individual_analysis", JArr []);
                                      (str "summary", JObj [])])]))
         Scenario.fresh)
  = Sent (mkResponse 200
            [(str "Content-Type", str "text/csv");
             (str "Content-Disposition",
              str "attachment; filename=" ++ dquote
              ++ str "feedback_analysis_2024-01-02.csv" ++ dquote)]
            (Text (str "Student ID,Course,Instructor,Rating,Sentiment,Category,Feedback"
                   ++ nl ++ nl ++ nl ++ str "SUMMARY" ++ nl
                   ++ str "Total Responses,undefined" ++ nl
                   ++ str "Average Rating,undefined" ++ nl
                   ++ str "Positive Sentiment %,undefined" ++ nl
                   ++ str "Key Themes,undefined" ++ nl))).
Proof. split; vm_compute; reflexivity. Qed.

(** ** C2: which registration answers *)

(** C2: the upload is answered by the first registration, which neither
    sorts nor deduplicates.  Two instructors whose files yield the same id
    are both listed, with that one id. *)
Theorem upload_lists_duplicate_ids :
  listed [mkInstructor (str "A_feedback.csv") (str "A feedback.csv")
            (str "A_feedback.csv_feedback.csv");
          mkInstructor (str "A_feedback.csv") (str "A feedback.csv")
            (str "_feedback.csvA_feedback.csv")]
    (fst (serve Scenario.dir
            (splitter (instructorDataDir Scenario.dir)
               [str "A_feedback.csv"; str "_feedback.csvA"])
            Scenario.no_json Scenario.no_llm
            (upload_request (JObj []) (Some Scenario.csv_part)) Scenario.fresh)).
Proof. vm_compute. reflexivity. Qed.

(** ** Paths *)

Lemma split_char_at_sep (c : ascii) (s t : jstring) :
  forallb (fun x => negb (ascii_eqb x c)) s = true ->
  split_char c (s ++ c :: t) = s :: split_char c t.
Proof.
  induction s as [|x s IH]; intro H.
  - simpl. rewrite ascii_eqb_refl. reflexivity.
  - simpl in H. apply andb_true_iff in H. destruct H as [Hx Hs].
    apply negb_true_iff in Hx. simpl. rewrite Hx, (IH Hs). reflexivity.
Qed.

Lemma split_char_components (s : jstring) (l : list jstring) :
  no_slash s = true ->
  forallb no_slash l = true ->
  split_char Path.slash (s ++ abs_path l) = s :: l.
Proof.
  revert s. induction l as [|t l IH]; intros s Hs Hl.
  - unfold abs_path. simpl. rewrite app_nil_r. apply split_char_plain. exact Hs.
  - simpl in Hl. apply andb_true_iff in Hl. destruct Hl as [Ht Hl].
    change (abs_path (t :: l)) with (Path.slash :: (t ++ abs_path l)).
    rewrite (split_char_at_sep _ _ _ Hs). rewrite (IH t Ht Hl). reflexivity.
Qed.

Lemma split_char_abs_path (l : list jstring) :
  forallb no_slash l = true ->
  split_char Path.slash (abs_path l) = [] :: l.
Proof. intro Hl. apply (split_char_components [] l eq_refl Hl). Qed.

Lemma abs_path_app (l l' : list jstring) : abs_path (l ++ l') = abs_path l ++ abs_path l'.
Proof. unfold abs_path. rewrite map_app, concat_app. reflexivity. Qed.

Lemma join_abs_path (l : list jstring) :
  l <> [] -> Path.slash :: join [Path.slash] l = abs_path l.
Proof.
  induction l as [|s l IH]; intro H; [contradiction|].
  destruct l as [|t l].
  - unfold abs_path. simpl. rewrite app_nil_r. reflexivity.
  - change (join [Path.slash] (s :: t :: l))
      with (s ++ [Path.slash] ++ join [Path.slash] (t :: l)).
    change (abs_path (s :: t :: l)) with (Path.slash :: (s ++ abs_path (t :: l))).
    rewrite <- IH by discriminate. reflexivity.
Qed.

Lemma plain_segment_true (s : jstring) :
  plain_segment s = true ->
  no_slash s = true /\ eqb s [] = false /\ eqb s (str ".") = false
  /\ eqb s (str "..") = false.
Proof.
  unfold plain_segment. intro H.
  repeat (apply andb_true_iff in H; destruct H as [H ?]).
  repeat match goal with
         | X : negb _ = true |- _ => apply negb_true_iff in X
         end.
  auto.
Qed.

Lemma forallb_plain_no_slash (l : list jstring) :
  forallb plain_segment l = true -> forallb no_slash l = true.
Proof.
  induction l as [|s l IH]; simpl; [reflexivity|].
  intro H. apply andb_true_iff in H. destruct H as [Hs Hl].
  apply plain_segment_true in Hs. destruct Hs as [-> _]. simpl. auto.
Qed.

(** Plain components go onto the stack untouched. *)
Lemma normalize_segments_plain (above : bool) (plain stack rest : list jstring) :
  forallb plain_segment plain = true ->
  Path.normalize_segments above stack (plain ++ rest)
  = Path.normalize_segments above (rev plain ++ stack) rest.
Proof.
  revert stack. induction plain as [|s plain IH]; intros stack H.
  - reflexivity.
  - simpl in H. apply andb_true_iff in H. destruct H as [Hs Hp].
    apply plain_segment_true in Hs. destruct Hs as [_ [H1 [H2 H3]]].
    change ((s :: plain) ++ rest) with (s :: (plain ++ rest)).
    cbn [Path.normalize_segments]. rewrite H1, H2, H3. cbn [orb].
    rewrite (IH _ Hp). change (rev (s :: plain)) with (rev plain ++ [s]).
    rewrite <- app_assoc. reflexivity.
Qed.

Lemma has_trailing_slash_last (x : jstring) (c : ascii) :
  Path.has_trailing_slash (x ++ [c]) = ascii_eqb c Path.slash.
Proof. unfold Path.has_trailing_slash. rewrite rev_unit. reflexivity. Qed.

Lemma normalize_nonempty (p : jstring) :
  p <> [] ->
  Path.normalize p =
  let abs := Path.isAbsolute p in
  let trailing := Path.has_trailing_slash p in
  let body := join [Path.slash]
                (Path.normalize_segments (negb abs) [] (split_char Path.slash p)) in
  match body with
  | [] => if abs then [Path.slash] else if trailing then str "./" else str "."
  | _ :: _ =>
      let body' := if trailing then body ++ [Path.slash] else body in
      if abs then Path.slash :: body' else body'
  end.
Proof. intro H. destruct p; [contradiction | reflexivity]. Qed.

(** Normalizing an absolute path that does not end in a slash. *)
Lemma normalize_abs_path (l r : list jstring) (x : jstring) (c : ascii) :
  forallb no_slash l = true ->
  abs_path l = x ++ [c] ->
  ascii_eqb c Path.slash = false ->
  Path.normalize_segments false [] l = r ->
  r <> [] ->
  Path.normalize (abs_path l) = abs_path r.
Proof.
  intros Hl Hlast Hc Hr Hne.
  assert (Hnonempty : abs_path l <> []).
  { rewrite Hlast. destruct x; discriminate. }
  rewrite (normalize_nonempty _ Hnonempty). cbv zeta.
  assert (Habs : Path.isAbsolute (abs_path l) = true).
  { destruct l as [|s l]; [contradiction Hnonempty; reflexivity | reflexivity]. }
  rewrite Habs. cbn [negb].
  rewrite (split_char_abs_path l Hl).
  cbn [Path.normalize_segments eqb orb]. rewrite Hr.
  rewrite Hlast. rewrite has_trailing_slash_last, Hc.
  pose proof (join_abs_path r Hne) as Hj.
  destruct (join [Path.slash] r) as [|b q] eqn:Ej.
  - destruct r as [|s r]; [contradiction|].
    destruct r; simpl in Ej.
    + subst s. unfold abs_path in Hj. simpl in Hj. symmetry. exact Hj.
    + destruct s; discriminate Ej.
  - exact Hj.
Qed.

Lemma join_paths_two (a f : jstring) :
  a <> [] -> f <> [] -> Path.join_paths [a; f] = Path.normalize (a ++ Path.slash :: f).
Proof.
  intros Ha Hf. destruct a as [|x a]; [contradiction|].
  destruct f as [|y f]; [contradiction|]. reflexivity.
Qed.

Lemma abs_path_nonempty (segs : list jstring) : segs <> [] -> abs_path segs <> [].
Proof. destruct segs; [contradiction | discriminate]. Qed.

(** Below a directory with plain components, [path.join] with one more
    plain component appends it. *)
Lemma join_paths_child (segs : list jstring) (x : jstring) (c : ascii) :
  segs <> [] ->
  forallb plain_segment segs = true ->
  plain_segment (x ++ [c]) = true ->
  Path.join_paths [abs_path segs; x ++ [c]] = abs_path (segs ++ [x ++ [c]]).
Proof.
  intros Hne Hplain Hx.
  rewrite join_paths_two; [|apply abs_path_nonempty; exact Hne|destruct x; discriminate].
  assert (E : abs_path segs ++ Path.slash :: (x ++ [c]) = abs_path (segs ++ [x ++ [c]])).
  { rewrite abs_path_app. unfold abs_path at 3. simpl. rewrite app_nil_r. reflexivity. }
  rewrite E.
  destruct (plain_segment_true _ Hx) as [Hslash _].
  apply (normalize_abs_path _ _ (abs_path segs ++ Path.slash :: x) c).
  - rewrite forallb_app, (forallb_plain_no_slash _ Hplain). simpl. rewrite Hslash. reflexivity.
  - rewrite <- E. rewrite <- app_assoc. reflexivity.
  - rewrite no_slash_app in Hslash. apply andb_true_iff in Hslash.
    destruct Hslash as [_ Hc]. simpl in Hc. rewrite andb_true_r in Hc.
    apply negb_true_iff in Hc. exact Hc.
  - rewrite <- (app_nil_r (segs ++ [x ++ [c]])) at 1.
    rewrite (normalize_segments_plain false (segs ++ [x ++ [c]]) [] []).
    + rewrite app_nil_r. cbn [Path.normalize_segments]. apply rev_involutive.
    + rewrite forallb_app, Hplain. simpl. rewrite Hx. reflexivity.
  - destruct segs; discriminate.
Qed.

Lemma instructorDataDir_abs (segs : list jstring) :
  segs <> [] ->
  forallb plain_segment segs = true ->
  instructorDataDir (abs_path segs) = abs_path (segs ++ [str "instructor_data"]).
Proof.
  intros Hne Hplain. unfold instructorDataDir.
  apply (join_paths_child segs (str "instructor_dat") "a"%char Hne Hplain). reflexivity.
Qed.

(** The parent-directory component of the requested name cancels
    "instructor_data". *)
Lemma join_paths_parent (segs : list jstring) :
  segs <> [] ->
  forallb plain_segment segs = true ->
  Path.join_paths [instructorDataDir (abs_path segs); str "../uploads/x.csv"]
  = abs_path segs ++ str "/uploads/x.csv".
Proof.
  intros Hne Hplain. rewrite (instructorDataDir_abs segs Hne Hplain).
  rewrite join_paths_two; [|apply abs_path_nonempty; destruct segs; discriminate|discriminate].
  set (extra := [str "instructor_data"; str ".."; str "uploads"; str "x.csv"]).
  assert (E : abs_path (segs ++ [str "instructor_data"])
              ++ Path.slash :: str "../uploads/x.csv" = abs_path (segs ++ extra)).
  { rewrite !abs_path_app. rewrite <- app_assoc. reflexivity. }
  rewrite E.
  assert (R : abs_path segs ++ str "/uploads/x.csv"
              = abs_path (segs ++ [str "uploads"; str "x.csv"])).
  { rewrite abs_path_app. reflexivity. }
  rewrite R.
  apply (normalize_abs_path _ _ (abs_path segs ++ str "/instructor_data/../uploads/x.cs")
           "v"%char).
  - rewrite forallb_app, (forallb_plain_no_slash _ Hplain). reflexivity.
  - rewrite abs_path_app, <- app_assoc. reflexivity.
  - reflexivity.
  - rewrite (normalize_segments_plain false segs [] extra Hplain).
    rewrite app_nil_r. unfold extra.
    cbn [Path.normalize_segments].
    change (eqb (str "instructor_data") []) with false.
    change (eqb (str "instructor_data") (str ".")) with false.
    change (eqb (str "instructor_data") (str "..")) with false.
    change (eqb (str "..") []) with false.
    change (eqb (str "..") (str ".")) with false.
    change (eqb (str "..") (str "..")) with true.
    change (eqb (str "uploads") []) with false.
    change (eqb (str "uploads") (str ".")) with false.
    change (eqb (str "uploads") (str "..")) with false.
    change (eqb (str "x.csv") []) with false.
    change (eqb (str "x.csv") (str ".")) with false.
    change (eqb (str "x.csv") (str "..")) with false.
    cbn [orb]. simpl rev. rewrite rev_involutive. rewrite <- app_assoc. reflexivity.
  - destruct segs; discriminate.
Qed.

Lemma stateless_ret {A : Type} (a : A) : stateless (ret a).
Proof. intro w. reflexivity. Qed.

Lemma stateless_throw {A : Type} (e : jsval) : stateless (@throw A e).
Proof. intro w. reflexivity. Qed.

Lemma stateless_lift {A : Type} (c : completion A) : stateless (lift c).
Proof. intro w. reflexivity. Qed.

Lemma stateless_get_world : stateless get_world.
Proof. intro w. reflexivity. Qed.

Lemma stateless_bind {A B : Type} (m : M A) (k : A -> M B) :
  stateless m -> (forall a, stateless (k a)) -> stateless (bind m k).
Proof.
  intros Hm Hk w. unfold bind. specialize (Hm w).
  destruct (m w) as [[a|e] w']; simpl in Hm; subst w'; [apply Hk | reflexivity].
Qed.

Lemma stateless_try_catch {A : Type} (m : M A) (h : jsval -> M A) :
  stateless m -> (forall e, stateless (h e)) -> stateless (try_catch m h).
Proof.
  intros Hm Hh w. unfold try_catch. specialize (Hm w).
  destruct (m w) as [[a|e] w']; simpl in Hm; subst w'; [reflexivity | apply Hh].
Qed.

Lemma stateless_if {A : Type} (b : bool) (m1 m2 : M A) :
  stateless m1 -> stateless m2 -> stateless (if b then m1 else m2).
Proof. destruct b; auto. Qed.

Ltac stateless_steps :=
  repeat first
    [ apply stateless_ret
    | apply stateless_throw
    | apply stateless_lift
    | apply stateless_get_world
    | apply stateless_if
    | apply stateless_try_catch; [|intro]
    | apply stateless_bind; [|intro] ].

(** The [catch] block of the analyze handler leaves the world alone. *)
Lemma analyze_catch_stateless (JSON_parse : parser_model) (err : jsval) :
  stateless (analyze_catch JSON_parse err).
Proof. unfold analyze_catch. stateless_steps. Qed.

Lemma analyze_catch_world (JSON_parse : parser_model) (err : jsval) (w : world) :
  snd (analyze_catch JSON_parse err w) = w.
Proof. apply analyze_catch_stateless. Qed.

(** Once the guards are passed the analysis process is started on the joined
    path, and on nothing else. *)
Lemma analyze_handler_spawns (dirname : jstring) (os_run : os_model)
    (JSON_parse : parser_model) (req : request) (w : world) (f py : jstring) :
  prop (req_body req) (str "filename") = inl (JStr f) ->
  f <> [] ->
  PYTHON_CMD w = Some py ->
  mem (Path.join_paths [instructorDataDir dirname; f]) (files w) = true ->
  mem (analyze_script dirname) (files w) = true ->
  spawned (snd (analyze_handler dirname os_run JSON_parse req w))
  = spawned w ++ [(py, [analyze_script dirname;
                        Path.join_paths [instructorDataDir dirname; f]])].
Proof.
  intros Hname Hf Hpy Hfile Hscript.
  rewrite (analyze_handler_guards dirname os_run JSON_parse req w f py Hname Hf Hpy).
  cbv zeta. rewrite (path_exists_file _ _ Hfile), (path_exists_file _ _ Hscript).
  cbn [negb].
  unfold try_catch, bind at 1.
  unfold runPythonScript, bind, get_world, spawn. rewrite Hpy.
  destruct (os_run py _ (files w)) as [[code out err|message] fs'].
  - destruct (negb (code_is_zero code)).
    + unfold throw. rewrite analyze_catch_world. reflexivity.
    + unfold ret, lift.
      destruct (JSON_parse out) as [result|e1]; [|rewrite analyze_catch_world; reflexivity].
      destruct (prop result (str "error")) as [e|e1];
        [|rewrite analyze_catch_world; reflexivity].
      destruct (truthy e); reflexivity.
  - unfold throw. rewrite analyze_catch_world. reflexivity.
Qed.

(** ** C9: the requested name is not confined to the data directory *)

(** C9: wherever the server lives, the requested name "../uploads/x.csv" is
    joined to a path outside the instructor-data directory, namely
    uploads/x.csv next to it; no check stands in the way, so when that file
    exists (and the runtime and analyze.py are there) the analysis process is
    started on it. *)
Theorem analyze_follows_parent_segments (segs : list jstring) (os_run : os_model)
    (JSON_parse : parser_model) (fetch_json : llm_model) (w : world) (py : jstring) :
  segs <> [] ->
  forallb plain_segment segs = true ->
  let dirname := abs_path segs in
  let requested := str "../uploads/x.csv" in
  let target := dirname ++ str "/uploads/x.csv" in
  Path.join_paths [instructorDataDir dirname; requested] = target
  /\ startsWith (instructorDataDir dirname ++ [Path.slash]) target = false
  /\ (PYTHON_CMD w = Some py ->
      mem target (files w) = true ->
      mem (analyze_script dirname) (files w) = true ->
      spawned (snd (serve dirname os_run JSON_parse fetch_json
                      (post "/api/analyze-instructor"
                         (JObj [(str "filename", JStr requested)])) w))
      = spawned w ++ [(py, [analyze_script dirname; target])]).
Proof.
  intros Hne Hplain dirname requested target.
  assert (Hjoin : Path.join_paths [instructorDataDir dirname; requested] = target)
    by (apply join_paths_parent; assumption).
  split; [exact Hjoin|]. split.
  - unfold dirname, target. rewrite (instructorDataDir_abs segs Hne Hplain).
    rewrite abs_path_app, <- app_assoc, startsWith_app. reflexivity.
  - intros Hpy Hfile Hscript. rewrite serve_analyze. cbv zeta.
    assert (H : forall r, snd (settle r) = snd r) by (intros [[res|e] w']; reflexivity).
    rewrite H.
    rewrite (analyze_handler_spawns dirname os_run JSON_parse
               (post "/api/analyze-instructor" (JObj [(str "filename", JStr requested)]))
               w requested py eq_refl ltac:(discriminate) Hpy).
    + rewrite Hjoin. reflexivity.
    + rewrite Hjoin. exact Hfile.
    + exact Hscript.
Qed.

(** C9 on a concrete server: the scratch file uploads/x.csv is analysed. *)
Lemma analyze_follows_parent_segments_witness :
  Path.join_paths [instructorDataDir Scenario.dir; str "../uploads/x.csv"]
  = str "/srv/Backend/uploads/x.csv"
  /\ startsWith (instructorDataDir Scenario.dir ++ [Path.slash])
       (str "/srv/Backend/uploads/x.csv") = false
  /\ spawned (snd (serve Scenario.dir Scenario.idle_os Scenario.no_json Scenario.no_llm
                     (post "/api/analyze-instructor"
                        (JObj [(str "filename", JStr (str "../uploads/x.csv"))]))
                     Scenario.with_split_file))
     = [(str "python3", [str "/srv/Backend/analyze.py"; str "/srv/Backend/uploads/x.csv"])].
Proof.
  destruct (analyze_follows_parent_segments [str "srv"; str "Backend"]
              Scenario.idle_os Scenario.no_json Scenario.no_llm
              Scenario.with_split_file (str "python3")
              ltac:(discriminate) eq_refl) as [H1 [H2 H3]].
  split; [exact H1|]. split; [exact H2|].
  apply H3; reflexivity.
Defined.

(** ** C10: the answer depends on what the directory already holds *)

Lemma filename_of_file (n : jstring) : filename (instructor_of_file n) = n.
Proof. reflexivity. Qed.







(** ** The second registration of the upload route *)

(** A chain that ends in an answering handler never hands the request on. *)
Lemma chain_with_answer_never_next (pre : list middleware) (is_async : bool)
    (h : request -> M response) (req req' : request) (w w' : world) :
  run_chain (pre ++ [answering is_async h]) req w <> (ChainNext req', w').
Proof.
  revert req w. induction pre as [|m pre IH]; intros req w.
  - simpl. unfold bind, ret.
    destruct (h req w) as [[res|e] w1]; [discriminate|].
    destruct is_async; discriminate.
  - simpl. destruct (mw_run m req w) as [[[r|res]|e] w1].
    + apply IH.
    + discriminate.
    + destruct (mw_async m); discriminate.
Qed.

Ltac route_step :=
  match goal with
  | |- context [run_chain ?c ?r ?w] =>
      let E := fresh "E" in
      destruct (run_chain c r w) as [[r'|res|e|e] w1] eqn:E;
      [ exfalso;
        first [ exact (chain_with_answer_never_next [] _ _ _ _ _ _ E)
              | exact (chain_with_answer_never_next [_] _ _ _ _ _ _ E) ]
      | reflexivity
      | cbn [dispatch];
        match goal with
        | |- context [error_middleware ?x ?y ?z] =>
            destruct (error_middleware x y z) as [[res'|e'] w2]; reflexivity
        | _ => reflexivity
        end
      | reflexivity ]
  end.

(** X25: removing the second registration of POST /api/upload changes the
    answer to no request: the handler registered first always answers, so the one
    registered after the error middleware is never run. *)
Theorem second_upload_registration_is_dead (dirname : jstring) (os_run : os_model)
    (JSON_parse : parser_model) (fetch_json : llm_model) (req : request) (w : world) :
  serve dirname os_run JSON_parse fetch_json req w
  = dispatch (app_without_second_upload dirname os_run JSON_parse fetch_json)
      None req w.
Proof.
  unfold serve, app_without_second_upload, app. cbn [firstn skipn List.app].
  cbn [dispatch].
  destruct (method_eqb (req_method req) POST && eqb (req_url req) (str "/api/login"));
    [route_step|].
  destruct (method_eqb (req_method req) POST && eqb (req_url req) (str "/api/upload"));
    [route_step|].
  destruct (method_eqb (req_method req) POST
            && eqb (req_url req) (str "/api/analyze-instructor")); [route_step|].
  destruct (method_eqb (req_method req) GET && eqb (req_url req) (str "/api/health"));
    [route_step|].
  destruct (method_eqb (req_method req) POST
            && eqb (req_url req) (str "/api/download-report")); [route_step|].
  reflexivity.
Qed.

(** ** The default sort *)

Lemma leb_refl (s : jstring) : leb s s = true.
Proof.
  induction s as [|a s IH]; simpl; [reflexivity|].
  rewrite Nat.ltb_irrefl. exact IH.
Qed.

Lemma leb_total (s t : jstring) : leb s t = true \/ leb t s = true.
Proof.
  revert t. induction s as [|a s IH]; intros [|b t]; simpl; auto.
  destruct (nat_of_ascii a <? nat_of_ascii b) eqn:E1;
    destruct (nat_of_ascii b <? nat_of_ascii a) eqn:E2; auto.
Qed.

Lemma nat_of_ascii_inj (a b : ascii) : nat_of_ascii a = nat_of_ascii b -> a = b.
Proof.
  intro H. rewrite <- (ascii_nat_embedding a), <- (ascii_nat_embedding b), H.
  reflexivity.
Qed.

Lemma leb_antisym (s t : jstring) : leb s t = true -> leb t s = true -> s = t.
Proof.
  revert t. induction s as [|a s IH]; intros [|b t]; simpl; try discriminate; auto.
  destruct (nat_of_ascii a <? nat_of_ascii b) eqn:E1;
    destruct (nat_of_ascii b <? nat_of_ascii a) eqn:E2; try discriminate.
  - apply Nat.ltb_lt in E1, E2. lia.
  - apply Nat.ltb_ge in E1, E2. intros H1 H2.
    assert (a = b) by (apply nat_of_ascii_inj; lia).
    subst b. f_equal. apply IH; assumption.
Qed.

Lemma leb_trans (s t u : jstring) : leb s t = true -> leb t u = true -> leb s u = true.
Proof.
  revert t u. induction s as [|a s IH]; intros [|b t] [|c u]; simpl;
    try discriminate; auto.
  destruct (nat_of_ascii a <? nat_of_ascii b) eqn:E1;
    destruct (nat_of_ascii b <? nat_of_ascii a) eqn:E2; try discriminate;
    destruct (nat_of_ascii b <? nat_of_ascii c) eqn:E3;
    destruct (nat_of_ascii c <? nat_of_ascii b) eqn:E4; try discriminate;
    destruct (nat_of_ascii a <? nat_of_ascii c) eqn:E5; auto;
    destruct (nat_of_ascii c <? nat_of_ascii a) eqn:E6;
    repeat match goal with
           | H : (_ <? _) = true |- _ => apply Nat.ltb_lt in H
           | H : (_ <? _) = false |- _ => apply Nat.ltb_ge in H
           end; try lia; try discriminate.
  apply IH.
Qed.

Lemma insert_sorted_Permutation (x : jstring) (xs : list jstring) :
  Permutation (insert_sorted x xs) (x :: xs).
Proof.
  induction xs as [|y ys IH]; simpl; [reflexivity|].
  destruct (leb y x); [|reflexivity].
  rewrite IH. apply perm_swap.
Qed.

Lemma insert_sorted_HdRel (a x : jstring) (xs : list jstring) :
  leb a x = true ->
  HdRel (fun a b => leb a b = true) a xs ->
  HdRel (fun a b => leb a b = true) a (insert_sorted x xs).
Proof.
  intros Hax Hhd. destruct xs as [|y ys]; simpl.
  - constructor. exact Hax.
  - inversion Hhd; subst. destruct (leb y x); constructor; assumption.
Qed.

Lemma insert_sorted_order (x : jstring) (xs : list jstring) :
  in_sort_order xs -> in_sort_order (insert_sorted x xs).
Proof.
  unfold in_sort_order. induction 1 as [|y ys Hs IH Hhd]; simpl.
  - repeat constructor.
  - destruct (leb y x) eqn:E.
    + constructor; [exact IH|]. apply insert_sorted_HdRel; assumption.
    + constructor; [constructor; assumption|]. constructor.
      destruct (leb_total x y) as [H|H]; [exact H | congruence].
Qed.

Lemma js_sort_from (acc xs : list jstring) :
  in_sort_order acc ->
  in_sort_order (fold_left (fun acc x => insert_sorted x acc) xs acc)
  /\ Permutation (fold_left (fun acc x => insert_sorted x acc) xs acc) (xs ++ acc).
Proof.
  revert acc. induction xs as [|x xs IH]; intros acc Hacc; simpl.
  - split; [exact Hacc | reflexivity].
  - destruct (IH (insert_sorted x acc) (insert_sorted_order x acc Hacc)) as [Hs Hp].
    split; [exact Hs|].
    rewrite Hp, insert_sorted_Permutation. symmetry. apply Permutation_middle.
Qed.

(** X1: the array the second registration sorts comes out in code-unit order
    and holds the same names as before. *)
Theorem js_sort_sorts (xs : list jstring) :
  in_sort_order (js_sort xs) /\ Permutation (js_sort xs) xs.
Proof.
  unfold js_sort.
  destruct (js_sort_from [] xs ltac:(constructor)) as [Hs Hp].
  split; [exact Hs|]. rewrite app_nil_r in Hp. exact Hp.
Qed.

Lemma insert_sorted_last (x : jstring) (xs : list jstring) :
  Forall (fun y => leb y x = true) xs -> insert_sorted x xs = xs ++ [x].
Proof.
  induction 1 as [|y ys Hy Hys IH]; simpl; [reflexivity|].
  rewrite Hy, IH. reflexivity.
Qed.

Lemma sorted_prefix_below (xs : list jstring) (x : jstring) :
  in_sort_order (xs ++ [x]) -> Forall (fun y => leb y x = true) xs.
Proof.
  unfold in_sort_order. intro H.
  apply Sorted_StronglySorted in H.
  - induction xs as [|y ys IH]; [constructor|].
    simpl in H. inversion H as [|? ? Hss Hall]; subst.
    constructor.
    + rewrite Forall_forall in Hall. apply Hall. apply in_or_app. right. left. reflexivity.
    + apply IH. exact Hss.
  - intros a b c. apply leb_trans.
Qed.

Lemma sorted_prefix (xs : list jstring) (x : jstring) :
  in_sort_order (xs ++ [x]) -> in_sort_order xs.
Proof.
  unfold in_sort_order. induction xs as [|y ys IH]; intro H; [constructor|].
  simpl in H. inversion H as [|? ? Hs Hhd]; subst.
  constructor; [apply IH; exact Hs|].
  destruct ys as [|z zs]; [constructor|].
  simpl in Hhd. inversion Hhd; subst. constructor. assumption.
Qed.

(** Sorting a listing that is already in order changes nothing. *)
Lemma js_sort_sorted (xs : list jstring) : in_sort_order xs -> js_sort xs = xs.
Proof.
  unfold js_sort. induction xs as [|x xs IH] using rev_ind; intro H; [reflexivity|].
  rewrite fold_left_app. simpl.
  rewrite (IH (sorted_prefix xs x H)).
  apply insert_sorted_last. apply sorted_prefix_below. exact H.
Qed.

(** ** The Map of the second registration *)

Lemma assoc_In_keys {V : Type} (k : jstring) (m : js_map V) :
  map_has k m = true <-> In k (map fst m).
Proof.
  unfold map_has. induction m as [|[k' v'] m IH]; simpl.
  - split; [discriminate | contradiction].
  - destruct (eqb k k') eqn:E.
    + apply eqb_true in E. subst. split; auto.
    + apply eqb_false in E. rewrite IH. split; [auto|].
      intros [H|H]; [congruence | exact H].
Qed.

Lemma map_set_absent {V : Type} (k : jstring) (v : V) (m : js_map V) :
  map_has k m = false -> map_set k v m = m ++ [(k, v)].
Proof.
  unfold map_has. induction m as [|[k' v'] m IH]; simpl; [reflexivity|].
  destruct (eqb k k'); [discriminate|].
  intro H. rewrite (IH H). reflexivity.
Qed.

(** What the loop over the files keeps invariant: the keys are distinct,
    every record sits under its own id, every file seen has its id among the
    keys, and the record of an id is the first file seen with that id. *)
Lemma instructorMap_invariant (files : list jstring) :
  let m := fold_left instructorMap_step files [] in
  NoDup (map fst m)
  /\ (forall k e, In (k, e) m -> id e = k /\ baseName (filename e) = k)
  /\ (forall f, In f files -> In (baseName f) (map fst m))
  /\ (forall k e, In (k, e) m ->
        exists before after,
          files = before ++ filename e :: after
          /\ forall f, In f before -> baseName f <> k).
Proof.
  induction files as [|x files IH] using rev_ind.
  - simpl. repeat split; try constructor; try contradiction.
  - rewrite fold_left_app. simpl.
    set (m := fold_left instructorMap_step files []) in *.
    destruct IH as [Hnd [Hid [Hseen Hfirst]]].
    unfold instructorMap_step at 1 2 3 4. fold (baseName x).
    destruct (map_has (baseName x) m) eqn:Ehas; cbn [negb].
    + repeat split.
      * exact Hnd.
      * apply (Hid k e H).
      * apply (Hid k e H).
      * intros f Hf. apply in_app_or in Hf. destruct Hf as [Hf|[<-|[]]].
        -- apply Hseen. exact Hf.
        -- apply assoc_In_keys. exact Ehas.
      * intros k e Hke. destruct (Hfirst k e Hke) as [before [after [Hsplit Hnone]]].
        exists before, (after ++ [x]). split; [|exact Hnone].
        rewrite Hsplit, <- app_assoc. reflexivity.
    + rewrite (map_set_absent _ _ _ Ehas).
      assert (Hnew : ~ In (baseName x) (map fst m)).
      { intro H. apply assoc_In_keys in H. congruence. }
      repeat split.
      * rewrite map_app. simpl. apply NoDup_app.
        -- exact Hnd.
        -- repeat constructor. intros [].
        -- intros a Ha [<-|[]]. contradiction.
      * apply in_app_or in H. destruct H as [H|[H|[]]].
        -- apply (Hid k e H).
        -- injection H as <- <-. reflexivity.
      * apply in_app_or in H. destruct H as [H|[H|[]]].
        -- apply (Hid k e H).
        -- injection H as <- <-. reflexivity.
      * intros f Hf. rewrite map_app. apply in_or_app.
        apply in_app_or in Hf. destruct Hf as [Hf|[<-|[]]].
        -- left. apply Hseen. exact Hf.
        -- right. left. reflexivity.
      * intros k e Hke. apply in_app_or in Hke. destruct Hke as [Hke|[Hke|[]]].
        -- destruct (Hfirst k e Hke) as [before [after [Hsplit Hnone]]].
           exists before, (after ++ [x]). split; [|exact Hnone].
           rewrite Hsplit, <- app_assoc. reflexivity.
        -- injection Hke as <- <-. exists files, []. split; [reflexivity|].
           intros f Hf E. apply Hnew. rewrite <- E. apply Hseen. exact Hf.
Qed.

Lemma map_values_ids (m : js_map instructor) :
  (forall k e, In (k, e) m -> id e = k) -> map id (map_values m) = map fst m.
Proof.
  unfold map_values. induction m as [|[k e] m IH]; intro H; [reflexivity|].
  simpl. rewrite (H k e (or_introl eq_refl)). f_equal.
  apply IH. intros k' e' Hin. apply H. right. exact Hin.
Qed.

(** X2: the records the second registration builds have pairwise distinct
    ids, every file's id is among them, and the record kept for an id is the
    one of the first file with that id (later files with the same id are
    discarded). *)
Theorem instructorMap_first_wins (files : list jstring) :
  let instructors := instructors_of_files_v2 files in
  NoDup (map id instructors)
  /\ (forall f, In f files -> In (baseName f) (map id instructors))
  /\ (forall e, In e instructors ->
        id e = baseName (filename e)
        /\ exists before after,
             files = before ++ filename e :: after
             /\ forall f, In f before -> baseName f <> id e).
Proof.
  cbv zeta. unfold instructors_of_files_v2.
  destruct (instructorMap_invariant files) as [Hnd [Hid [Hseen Hfirst]]].
  set (m := fold_left instructorMap_step files []) in *.
  assert (Hids : map id (map_values m) = map fst m).
  { apply map_values_ids. intros k e H. apply (Hid k e H). }
  rewrite Hids. split; [exact Hnd|]. split; [exact Hseen|].
  intros e He. unfold map_values in He. apply in_map_iff in He.
  destruct He as [[k e'] [Hsnd Hin]]. simpl in Hsnd. subst e'.
  destruct (Hid k e Hin) as [Hk Hb]. split; [congruence|].
  destruct (Hfirst k e Hin) as [before [after [Hsplit Hnone]]].
  exists before, after. split; [exact Hsplit|]. rewrite Hk. exact Hnone.
Qed.

Lemma instructorMap_distinct (files : list jstring) :
  NoDup (map baseName files) ->
  fold_left instructorMap_step files []
  = map (fun f => (baseName f, instructor_of_file f)) files.
Proof.
  induction files as [|x files IH] using rev_ind; intro H; [reflexivity|].
  rewrite map_app in H. simpl in H.
  assert (Hpre : NoDup (map baseName files)) by (apply NoDup_app_remove_r in H; exact H).
  assert (Hx : ~ In (baseName x) (map baseName files)).
  { intro Hin. apply NoDup_remove_2 in H. apply H. rewrite app_nil_r. exact Hin. }
  rewrite fold_left_app. simpl. rewrite (IH Hpre).
  unfold instructorMap_step. fold (baseName x).
  assert (Ehas : map_has (baseName x)
                   (map (fun f => (baseName f, instructor_of_file f)) files) = false).
  { destruct (map_has _ _) eqn:E; [|reflexivity].
    apply assoc_In_keys in E. rewrite map_map in E. simpl in E. contradiction. }
  rewrite Ehas. cbn [negb]. rewrite (map_set_absent _ _ _ Ehas).
  rewrite map_app. reflexivity.
Qed.

(** X3: on a listing that is already in sort order and whose files have
    pairwise distinct ids, the two registrations build the same records. *)
Theorem registrations_agree_on_clean_listing (files : list jstring) :
  in_sort_order files ->
  NoDup (map baseName files) ->
  instructors_of_files_v2 (js_sort files) = map instructor_of_file files.
Proof.
  intros Hsorted Hnd. rewrite (js_sort_sorted files Hsorted).
  unfold instructors_of_files_v2. rewrite (instructorMap_distinct files Hnd).
  unfold map_values. rewrite map_map. reflexivity.
Qed.

(** The agreement on a concrete listing. *)
Lemma registrations_agree_on_clean_listing_witness :
  instructors_of_files_v2 (js_sort [str "Amy_feedback.csv"; str "Bob_feedback.csv"])
  = map instructor_of_file [str "Amy_feedback.csv"; str "Bob_feedback.csv"].
Proof.
  apply registrations_agree_on_clean_listing.
  - repeat constructor.
  - repeat constructor; simpl; intuition discriminate.
Defined.

(** ** Uploads that multer refuses *)

(** X4: whatever the state of the server, a part whose MIME type is not
    text/csv and whose name has another extension than .csv is answered 500
    with the filter's message; nothing is stored and no process is spawned
    (the world is the one before the request). *)
Theorem upload_refuses_other_types (dirname : jstring) (os_run : os_model)
    (JSON_parse : parser_model) (fetch_json : llm_model)
    (body : jsval) (part : file_part) (w : world) :
  eqb (part_mimetype part) (str "text/csv") = false ->
  eqb (Path.extname (part_originalname part)) (str ".csv") = false ->
  serve dirname os_run JSON_parse fetch_json (upload_request body (Some part)) w
  = (Sent (failure 500 (JStr (str "Only CSV files are allowed!"))), w).
Proof.
  intros Hmime Hext. rewrite serve_upload. cbv zeta.
  unfold upload_single. cbn [req_part upload_request].
  unfold bind at 1. unfold lift, fileFilter. rewrite Hmime, Hext. reflexivity.
Qed.

(** upload refuses other types, on a concrete input. *)
Lemma upload_refuses_other_types_witness :
  serve Scenario.dir Scenario.idle_os Scenario.no_json Scenario.no_llm
    (upload_request (JObj []) (Some (mkPart (str "report.CSV") (str "application/pdf") 10%Z)))
    Scenario.without_python
  = (Sent (failure 500 (JStr (str "Only CSV files are allowed!"))), Scenario.without_python).
Proof.
  apply upload_refuses_other_types; reflexivity.
Defined.

(** X5: a CSV part larger than the 10 MB limit is answered 400 with the
    size message; nothing is stored and no process is spawned. *)
Theorem upload_refuses_large_files (dirname : jstring) (os_run : os_model)
    (JSON_parse : parser_model) (fetch_json : llm_model)
    (body : jsval) (part : file_part) (w : world) :
  fileFilter part = inl true ->
  (10 * 1024 * 1024 < part_size part)%Z ->
  serve dirname os_run JSON_parse fetch_json (upload_request body (Some part)) w
  = (Sent (failure 400 (JStr (str "File size too large. Maximum size is 10MB."))), w).
Proof.
  intros Hfilter Hsize. rewrite serve_upload. cbv zeta.
  unfold upload_single. cbn [req_part upload_request].
  unfold bind at 1. unfold lift. rewrite Hfilter.
  replace (fileSize_limit <? part_size part)%Z with true
    by (symmetry; apply Z.ltb_lt; exact Hsize).
  reflexivity.
Qed.

(** upload refuses large files, on a concrete input. *)
Lemma upload_refuses_large_files_witness :
  serve Scenario.dir Scenario.idle_os Scenario.no_json Scenario.no_llm
    (upload_request (JObj []) (Some (mkPart (str "all.csv") (str "text/csv") 20000000%Z)))
    Scenario.fresh
  = (Sent (failure 400 (JStr (str "File size too large. Maximum size is 10MB."))),
     Scenario.fresh).
Proof.
  apply upload_refuses_large_files; reflexivity.
Defined.

(** ** The scratch file *)

Lemma upload_catch_files (p : jstring) (err : jsval) (w : world) :
  mem p (files (snd (upload_catch p err w))) = false.
Proof.
  assert (Hst : forall (m : M response), stateless m ->
                forall w1, files (snd (m w1)) = files w1)
    by (intros m Hm w1; rewrite Hm; reflexivity).
  unfold upload_catch. unfold bind at 1. unfold existsSync at 1. cbv beta iota.
  destruct (path_exists p w) eqn:Ex.
  - unfold bind at 1. unfold unlinkSync at 1.
    destruct (mem p (files w)) eqn:E; cbv beta iota.
    + rewrite Hst by stateless_steps. apply mem_remove_path.
    + exact E.
  - unfold bind at 1. unfold ret at 1. cbv beta iota.
    rewrite Hst by stateless_steps. apply path_exists_false. exact Ex.
Qed.

(** X6: however an accepted upload ends (runtime missing, script missing,
    split failed or succeeded), the scratch file multer stored is gone when
    the request is over. *)
Theorem upload_removes_scratch_file (dirname : jstring) (os_run : os_model)
    (JSON_parse : parser_model) (fetch_json : llm_model)
    (body : jsval) (part : file_part) (w : world) :
  fileFilter part = inl true ->
  (part_size part <= fileSize_limit)%Z ->
  mem (scratch_path dirname w part)
    (files (snd (serve dirname os_run JSON_parse fetch_json
                   (upload_request body (Some part)) w))) = false.
Proof.
  intros Hfilter Hsize. rewrite serve_upload. cbv zeta.
  rewrite (upload_single_accepts dirname (upload_request body (Some part)) part w
             eq_refl Hfilter Hsize).
  set (p := scratch_path dirname w part).
  assert (Hsettle : forall r, snd (settle r) = snd r) by (intros [[res|e] w']; reflexivity).
  rewrite Hsettle.
  unfold upload_handler. cbn [req_file with_file path].
  unfold bind at 1. unfold get_world at 1. cbv beta iota.
  assert (Hstored : mem p (files (stored p w)) = true) by apply stored_files_mem.
  destruct (PYTHON_CMD (stored p w)) as [py|] eqn:Hpy.
  - unfold bind at 1. unfold existsSync at 1. cbv beta iota.
    match goal with
    | |- context [negb (path_exists ?s ?v)] => destruct (path_exists s v)
    end; cbn [negb].
    + unfold try_catch.
      unfold bind at 1. unfold runPythonScript, bind, get_world, spawn.
      cbv beta iota. rewrite Hpy.
      destruct (os_run py _ (files (stored p w))) as [[code out err|message] fs'].
      * destruct (negb (code_is_zero code)).
        -- unfold throw. apply upload_catch_files.
        -- unfold ret, unlinkSync. cbn [files set_files log_spawn].
           destruct (mem p fs') eqn:Hp.
           ++ unfold readdirSync. cbn [files set_files].
              destruct (length _ =? 0); cbn [snd files set_files]; apply mem_remove_path.
           ++ apply upload_catch_files.
      * unfold throw. apply upload_catch_files.
    + unfold bind, unlinkSync. rewrite Hstored. cbn [snd ret files set_files].
      apply mem_remove_path.
  - unfold bind, unlinkSync. rewrite Hstored. cbn [snd ret files set_files].
    apply mem_remove_path.
Qed.

(** upload removes scratch file, on a concrete input. *)
Lemma upload_removes_scratch_file_witness :
  mem (str "/srv/Backend/uploads/feedback-1700000000000-123456789.csv")
    (files (snd (serve Scenario.dir
                   (splitter (instructorDataDir Scenario.dir) [str "Jane Doe"])
                   Scenario.no_json Scenario.no_llm
                   (upload_request (JObj []) (Some Scenario.csv_part)) Scenario.fresh)))
  = false.
Proof.
  apply (upload_removes_scratch_file Scenario.dir
           (splitter (instructorDataDir Scenario.dir) [str "Jane Doe"])
           Scenario.no_json Scenario.no_llm (JObj []) Scenario.csv_part Scenario.fresh).
  - reflexivity.
  - vm_compute. discriminate.
Defined.

(** ** Uploads whose split fails or yields nothing *)

(** An accepted upload reaching the splitting script. *)
Lemma serve_upload_runs_script (dirname : jstring) (os_run : os_model)
    (JSON_parse : parser_model) (fetch_json : llm_model)
    (body : jsval) (part : file_part) (w : world) (py : jstring) :
  fileFilter part = inl true ->
  (part_size part <= fileSize_limit)%Z ->
  PYTHON_CMD w = Some py ->
  mem (extract_script dirname) (files w) = true ->
  let p := scratch_path dirname w part in
  serve dirname os_run JSON_parse fetch_json (upload_request body (Some part)) w
  = settle
      (try_catch
         (_ <- runPythonScript os_run (extract_script dirname) [p] ;;
          unlinkSync p ;;;
          listing <- readdirSync (instructorDataDir dirname) ;;
          let picked := filter (endsWith suffix) listing in
          if length picked =? 0 then ret (failure 400 (JStr no_instructor_data))
          else ret (upload_ok (map instructor_of_file picked)))
         (upload_catch p) (stored p w)).
Proof.
  intros Hfilter Hsize Hpy Hscript p.
  rewrite serve_upload. cbv zeta.
  rewrite (upload_single_accepts dirname (upload_request body (Some part)) part w
             eq_refl Hfilter Hsize).
  fold p. f_equal.
  unfold upload_handler. cbn [req_file with_file path].
  unfold bind at 1. unfold get_world at 1. cbv beta iota.
  rewrite (stored_PYTHON_CMD p w), Hpy.
  fold (extract_script dirname).
  unfold bind at 1. unfold existsSync at 1. cbv beta iota.
  rewrite (path_exists_file _ _ (stored_files_keep p _ w Hscript)). reflexivity.
Qed.

(** What the [catch] block of the upload handlers answers when no directory
    is at the path of the scratch file. *)
Lemma upload_catch_response (p : jstring) (err stderr error : jsval) (w : world) :
  mem (dir_path p) (dirs w) = false ->
  prop err (str "stderr") = inl stderr ->
  prop err (str "error") = inl error ->
  fst (upload_catch p err w)
  = inl (failure 500
           (JStr (str "Failed to split CSV by instructor: "
                  ++ to_string (js_or (js_or stderr error) (JStr (str "Unknown error")))))).
Proof.
  intros Hd Hs He. unfold upload_catch. unfold bind at 1. unfold existsSync.
  cbv beta iota. rewrite (path_exists_no_dir p w Hd).
  destruct (mem p (files w)) eqn:E.
  - unfold bind at 1. unfold unlinkSync. rewrite E. cbv beta iota.
    unfold bind, lift, ret. rewrite Hs, He. reflexivity.
  - unfold bind at 1. unfold ret at 1. cbv beta iota.
    unfold bind, lift, ret. rewrite Hs, He. reflexivity.
Qed.

(** X7: when the splitting script ends with another exit code than 0 (or is
    killed), the upload is answered 500 with the script's stderr after the
    fixed prefix, or "Unknown error" when stderr is empty; its stdout is not
    reported. *)
Theorem upload_reports_split_failure (dirname : jstring) (os_run : os_model)
    (JSON_parse : parser_model) (fetch_json : llm_model)
    (body : jsval) (part : file_part) (w : world)
    (py out err : jstring) (code : option Z) (fs' : list jstring) :
  fileFilter part = inl true ->
  (part_size part <= fileSize_limit)%Z ->
  PYTHON_CMD w = Some py ->
  mem (extract_script dirname) (files w) = true ->
  let p := scratch_path dirname w part in
  os_run py [extract_script dirname; p] (files (stored p w)) = (Closed code out err, fs') ->
  code <> Some 0%Z ->
  fst (serve dirname os_run JSON_parse fetch_json (upload_request body (Some part)) w)
  = Sent (failure 500
            (JStr (str "Failed to split CSV by instructor: "
                   ++ match err with
                      | [] => str "Unknown error"
                      | _ :: _ => err
                      end))).
Proof.
  intros Hfilter Hsize Hpy Hscript p Hrun Hcode.
  rewrite (serve_upload_runs_script dirname os_run JSON_parse fetch_json body part w py
             Hfilter Hsize Hpy Hscript).
  fold p. unfold try_catch.
  unfold bind at 1. unfold runPythonScript, bind, get_world, spawn. cbv beta iota.
  rewrite (stored_PYTHON_CMD p w), Hpy, Hrun.
  assert (Hz : code_is_zero code = false).
  { destruct code as [z|]; [|reflexivity]. simpl.
    apply Z.eqb_neq. intro E. apply Hcode. congruence. }
  rewrite Hz. cbn [negb throw].
  assert (Hsettle : forall r, fst (settle r)
            = match fst r with inl res => Sent res | inr e => Rejected e end)
    by (intros [[res|e] w']; reflexivity).
  rewrite Hsettle.
  rewrite (upload_catch_response p _ (JStr err) JUndefined);
    [|apply stored_dirs|reflexivity|reflexivity].
  destruct err; reflexivity.
Qed.

(** upload reports split failure, on a concrete input. *)
Lemma upload_reports_split_failure_witness :
  fst (serve Scenario.dir
         (fun _ _ fs => (Closed (Some 1%Z) [] (str "KeyError: 'Instructor'"), fs))
         Scenario.no_json Scenario.no_llm
         (upload_request (JObj []) (Some Scenario.csv_part)) Scenario.fresh)
  = Sent (failure 500
            (JStr (str "Failed to split CSV by instructor: KeyError: 'Instructor'"))).
Proof.
  apply (upload_reports_split_failure Scenario.dir _ Scenario.no_json Scenario.no_llm
           (JObj []) Scenario.csv_part Scenario.fresh (str "python3") []
           (str "KeyError: 'Instructor'") (Some 1%Z)
           (files (stored (scratch_path Scenario.dir Scenario.fresh Scenario.csv_part)
                     Scenario.fresh)));
    solve [reflexivity | vm_compute; discriminate | discriminate].
Defined.



(** ** The analyze endpoint when the analysis fails *)

Lemma fst_settle (r : completion response * world) :
  fst (settle r) = match fst r with
                   | inl res => Sent res
                   | inr e => Rejected e
                   end.
Proof. destruct r as [[res|e] w']; reflexivity. Qed.

(** What the [catch] block answers for a rejection of [runPythonScript]
    after a failed run. *)
Lemma analyze_catch_failed_run (JSON_parse : parser_model)
    (code : option Z) (out err : jstring) (w : world) :
  fst (analyze_catch JSON_parse
         (JObj [(str "code", code_value code);
                (str "stderr", JStr err);
                (str "stdout", JStr out)]) w)
  = inl (send_json 500
           (JObj [(str "success", JBool false);
                  (str "error",
                   if includes (str "ModuleNotFoundError") err then
                     JStr (str "Python dependencies missing. Run: pip install transformers torch pandas")
                   else
                     match out with
                     | [] => JStr (str "Analysis failed")
                     | _ :: _ =>
                         match JSON_parse out with
                         | inl v =>
                             match prop v (str "error") with
                             | inl e => js_or e (JStr (str "Analysis failed"))
                             | inr _ => JStr out
                             end
                         | inr _ => JStr out
                         end
                     end);
                  (str "details",
                   JObj [(str "stderr", JStr err); (str "stdout", JStr out)])])).
Proof.
  unfold analyze_catch, bind, lift, ret, try_catch.
  cbn [prop assoc].
  change (eqb (str "stderr") (str "code")) with false.
  change (eqb (str "stderr") (str "stderr")) with true.
  change (eqb (str "stdout") (str "code")) with false.
  change (eqb (str "stdout") (str "stderr")) with false.
  change (eqb (str "stdout") (str "stdout")) with true.
  cbv beta iota.
  destruct err as [|c err].
  - cbn [truthy string_method]. cbv beta iota.
    change (includes (str "ModuleNotFoundError") []) with false. cbv beta iota.
    destruct out as [|d out]; cbn [truthy to_string]; cbv beta iota; [reflexivity|].
    destruct (JSON_parse (d :: out)) as [v|e1]; [|reflexivity].
    destruct (prop v (str "error")) as [e|e1]; reflexivity.
  - cbn [truthy string_method]. cbv beta iota.
    destruct (includes (str "ModuleNotFoundError") (c :: err)); [reflexivity|].
    destruct out as [|d out]; cbn [truthy to_string]; cbv beta iota; [reflexivity|].
    destruct (JSON_parse (d :: out)) as [v|e1]; [|reflexivity].
    destruct (prop v (str "error")) as [e|e1]; reflexivity.
Qed.

(** X9: when the analysis process ends with another exit code than 0, the
    request is answered 500 and the message is recovered in this order: the
    fixed dependency hint if stderr names ModuleNotFoundError; else the
    [error] property of stdout parsed as JSON (the fixed text "Analysis
    failed" if it is falsy); else the raw stdout if it does not parse; else
    "Analysis failed" if stdout is empty.  stderr and stdout are attached. *)
Theorem analyze_reports_failed_run (dirname : jstring) (os_run : os_model)
    (JSON_parse : parser_model) (fetch_json : llm_model)
    (body : jsval) (f py out err : jstring) (code : option Z)
    (fs' : list jstring) (w : world) :
  prop body (str "filename") = inl (JStr f) ->
  f <> [] ->
  PYTHON_CMD w = Some py ->
  mem (Path.join_paths [instructorDataDir dirname; f]) (files w) = true ->
  mem (analyze_script dirname) (files w) = true ->
  os_run py [analyze_script dirname; Path.join_paths [instructorDataDir dirname; f]]
    (files w) = (Closed code out err, fs') ->
  code <> Some 0%Z ->
  fst (serve dirname os_run JSON_parse fetch_json
         (post "/api/analyze-instructor" body) w)
  = Sent (send_json 500
            (JObj [(str "success", JBool false);
                   (str "error",
                    if includes (str "ModuleNotFoundError") err then
                      JStr (str "Python dependencies missing. Run: pip install transformers torch pandas")
                    else
                      match out with
                      | [] => JStr (str "Analysis failed")
                      | _ :: _ =>
                          match JSON_parse out with
                          | inl v =>
                              match prop v (str "error") with
                              | inl e => js_or e (JStr (str "Analysis failed"))
                              | inr _ => JStr out
                              end
                          | inr _ => JStr out
                          end
                      end);
                   (str "details",
                    JObj [(str "stderr", JStr err); (str "stdout", JStr out)])])).
Proof.
  intros Hname Hf Hpy Hfile Hscript Hrun Hcode.
  rewrite serve_analyze. cbv zeta.
  rewrite (analyze_handler_guards dirname os_run JSON_parse
             (post "/api/analyze-instructor" body) w f py Hname Hf Hpy).
  cbv zeta. rewrite (path_exists_file _ _ Hfile), (path_exists_file _ _ Hscript).
  cbn [negb].
  rewrite fst_settle.
  unfold try_catch. unfold bind at 1.
  unfold runPythonScript, bind, get_world, spawn. cbv beta iota.
  rewrite Hpy, Hrun.
  assert (Hz : code_is_zero code = false).
  { destruct code as [z|]; [|reflexivity]. simpl.
    apply Z.eqb_neq. intro E. apply Hcode. congruence. }
  rewrite Hz. cbn [negb throw].
  rewrite analyze_catch_failed_run. reflexivity.
Qed.

(** analyze reports failed run, on a concrete input. *)
Lemma analyze_reports_failed_run_witness :
  fst (serve Scenario.dir Scenario.failing_os Scenario.error_json Scenario.no_llm
         (post "/api/analyze-instructor"
            (JObj [(str "filename", JStr (str "Jane_Doe_feedback.csv"))]))
         Scenario.with_split_file)
  = Sent (send_json 500
            (JObj [(str "success", JBool false);
                   (str "error", JStr (str "CSV has no Feedback column"));
                   (str "details",
                    JObj [(str "stderr", JStr (str "Traceback"));
                          (str "stdout", JStr (str "{...}"))])])).
Proof.
  apply (analyze_reports_failed_run Scenario.dir Scenario.failing_os
           Scenario.error_json Scenario.no_llm
           (JObj [(str "filename", JStr (str "Jane_Doe_feedback.csv"))])
           (str "Jane_Doe_feedback.csv") (str "python3") (str "{...}") (str "Traceback")
           (Some 1%Z) (files Scenario.with_split_file) Scenario.with_split_file);
    solve [reflexivity | discriminate].
Defined.

(** X10: when the analysis process cannot be started, or when it exits 0 but
    its stdout does not parse (or parses to null), the request is answered
    500 with the bare message "Analysis failed": the spawn error and the
    parse error are not reported. *)
Theorem analyze_hides_spawn_and_parse_errors (dirname : jstring) (os_run : os_model)
    (JSON_parse : parser_model) (fetch_json : llm_model)
    (body : jsval) (f py : jstring) (o : proc_outcome)
    (fs' : list jstring) (w : world) :
  prop body (str "filename") = inl (JStr f) ->
  f <> [] ->
  PYTHON_CMD w = Some py ->
  mem (Path.join_paths [instructorDataDir dirname; f]) (files w) = true ->
  mem (analyze_script dirname) (files w) = true ->
  os_run py [analyze_script dirname; Path.join_paths [instructorDataDir dirname; f]]
    (files w) = (o, fs') ->
  (exists message, o = SpawnFailed message)
  \/ (exists out err m,
        o = Closed (Some 0%Z) out err /\ JSON_parse out = inr (SyntaxError m))
  \/ (exists out err, o = Closed (Some 0%Z) out err /\ JSON_parse out = inl JNull) ->
  fst (serve dirname os_run JSON_parse fetch_json
         (post "/api/analyze-instructor" body) w)
  = Sent (send_json 500
            (JObj [(str "success", JBool false);
                   (str "error", JStr (str "Analysis failed"));
                   (str "details",
                    JObj [(str "stderr", JUndefined); (str "stdout", JUndefined)])])).
Proof.
  intros Hname Hf Hpy Hfile Hscript Hrun Hcases.
  rewrite serve_analyze. cbv zeta.
  rewrite (analyze_handler_guards dirname os_run JSON_parse
             (post "/api/analyze-instructor" body) w f py Hname Hf Hpy).
  cbv zeta. rewrite (path_exists_file _ _ Hfile), (path_exists_file _ _ Hscript).
  cbn [negb].
  rewrite fst_settle.
  unfold try_catch. unfold bind at 1.
  unfold runPythonScript, bind, get_world, spawn. cbv beta iota.
  rewrite Hpy, Hrun.
  destruct Hcases as [[message ->]|[[out [err [m [-> Hparse]]]]|[out [err [-> Hparse]]]]].
  - reflexivity.
  - cbn [code_is_zero Z.eqb negb ret]. unfold lift. rewrite Hparse. reflexivity.
  - cbn [code_is_zero Z.eqb negb ret]. unfold lift. rewrite Hparse. reflexivity.
Qed.

(** analyze hides spawn and parse errors, on a concrete input. *)
Lemma analyze_hides_spawn_and_parse_errors_witness :
  fst (serve Scenario.dir Scenario.missing_os Scenario.no_json Scenario.no_llm
         (post "/api/analyze-instructor"
            (JObj [(str "filename", JStr (str "Jane_Doe_feedback.csv"))]))
         Scenario.with_split_file)
  = Sent (send_json 500
            (JObj [(str "success", JBool false);
                   (str "error", JStr (str "Analysis failed"));
                   (str "details",
                    JObj [(str "stderr", JUndefined); (str "stdout", JUndefined)])])).
Proof.
  apply (analyze_hides_spawn_and_parse_errors Scenario.dir Scenario.missing_os
           Scenario.no_json Scenario.no_llm
           (JObj [(str "filename", JStr (str "Jane_Doe_feedback.csv"))])
           (str "Jane_Doe_feedback.csv") (str "python3")
           (SpawnFailed (str "spawn python3 ENOENT"))
           (files Scenario.with_split_file) Scenario.with_split_file);
    try solve [reflexivity | discriminate].
  left. exists (str "spawn python3 ENOENT"). reflexivity.
Defined.

(** ** The chat endpoint *)

Lemma summary_not_in_scope (err message analysisData instructor conversationHistory : jsval) :
  resolve [[(str "err", err)];
           chat_function_frame message analysisData instructor conversationHistory;
           module_frame] (str "summary")
  = inr (ReferenceError (str "summary is not defined")).
Proof. reflexivity. Qed.

(** X11: for every chat request with a message, whatever makes the [try] block
    throw (the network, the reply, the summary or the history), the handler
    does not answer: its [catch] block throws a ReferenceError for [summary]
    and the promise is rejected. *)
Theorem chat_failure_is_never_answered (dirname : jstring) (os_run : os_model)
    (JSON_parse : parser_model) (fetch_json : llm_model)
    (body message analysisData instructor conversationHistory e : jsval)
    (w w' : world) :
  prop body (str "message") = inl message ->
  prop body (str "analysisData") = inl analysisData ->
  prop body (str "instructor") = inl instructor ->
  prop body (str "conversationHistory") = inl conversationHistory ->
  truthy message = true ->
  chat_try fetch_json message analysisData instructor conversationHistory w = (inr e, w') ->
  serve dirname os_run JSON_parse fetch_json (post "/api/chat" body) w
  = (Rejected (ReferenceError (str "summary is not defined")), w').
Proof.
  intros Hm Ha Hi Hh Htruthy Htry.
  rewrite serve_chat. cbv zeta.
  unfold chat_handler. cbn [req_body post].
  unfold bind at 1. unfold lift at 1. rewrite Hm.
  unfold bind at 1. unfold lift at 1. rewrite Ha.
  unfold bind at 1. unfold lift at 1. rewrite Hi.
  unfold bind at 1. unfold lift at 1. rewrite Hh.
  rewrite Htruthy. cbn [negb].
  unfold try_catch. rewrite Htry.
  unfold chat_catch. unfold bind at 1. unfold lift at 1.
  rewrite summary_not_in_scope. reflexivity.
Qed.

(** chat failure is never answered, on a concrete input. *)
Lemma chat_failure_is_never_answered_witness :
  serve Scenario.dir Scenario.idle_os Scenario.no_json Scenario.no_llm
    (post "/api/chat"
       (JObj [(str "message", JStr (str "What are my strengths?"));
              (str "conversationHistory", JArr [])]))
    Scenario.fresh
  = (Rejected (ReferenceError (str "summary is not defined")), Scenario.fresh).
Proof.
  apply (chat_failure_is_never_answered Scenario.dir Scenario.idle_os Scenario.no_json
           Scenario.no_llm _ (JStr (str "What are my strengths?")) JUndefined JUndefined
           (JArr []) (TypeError (str "fetch failed")));
    reflexivity.
Defined.

(** X12: a chat request without a message (absent, empty, null) is answered
    400 before anything else happens. *)
Theorem chat_requires_message (dirname : jstring) (os_run : os_model)
    (JSON_parse : parser_model) (fetch_json : llm_model)
    (fields : list (jstring * jsval)) (w : world) :
  truthy (opt_prop (JObj fields) (str "message")) = false ->
  serve dirname os_run JSON_parse fetch_json (post "/api/chat" (JObj fields)) w
  = (Sent (failure 400 (JStr (str "No message provided"))), w).
Proof.
  intro H. rewrite serve_chat. cbv zeta.
  unfold chat_handler, bind, lift. cbn [req_body post prop opt_prop] in *.
  destruct (assoc (str "message") fields);
    destruct (assoc (str "analysisData") fields);
    destruct (assoc (str "instructor") fields);
    destruct (assoc (str "conversationHistory") fields);
    rewrite H; reflexivity.
Qed.

(** chat requires message, on a concrete input. *)
Lemma chat_requires_message_witness :
  serve Scenario.dir Scenario.idle_os Scenario.no_json Scenario.no_llm
    (post "/api/chat" (JObj [(str "message", JStr [])])) Scenario.fresh
  = (Sent (failure 400 (JStr (str "No message provided"))), Scenario.fresh).
Proof.
  apply chat_requires_message. reflexivity.
Defined.



(** ** Where an upload is stored *)

Lemma uint_no_slash (d : Decimal.uint) :
  no_slash (str (NilEmpty.string_of_uint d)) = true.
Proof. induction d; simpl; auto. Qed.

Lemma of_Z_no_slash (z : Z) : no_slash (of_Z z) = true.
Proof.
  unfold of_Z. destruct (Z.to_int z) as [d|d]; simpl.
  - unfold NilZero.string_of_uint. destruct d; try reflexivity; apply (uint_no_slash (_ d)).
  - unfold NilZero.string_of_uint. destruct d; try reflexivity; apply (uint_no_slash (_ d)).
Qed.

Lemma no_slash_rev (s : jstring) : no_slash (rev s) = no_slash s.
Proof.
  unfold no_slash. induction s as [|c s IH]; [reflexivity|].
  simpl. rewrite forallb_app, IH. simpl. rewrite andb_true_r. apply andb_comm.
Qed.

Lemma take_until_slash_no_slash (r : jstring) : no_slash (Path.take_until_slash r) = true.
Proof.
  induction r as [|c r IH]; [reflexivity|].
  simpl. destruct (ascii_eqb c Path.slash) eqn:E; [reflexivity|].
  simpl. rewrite E. exact IH.
Qed.

Lemma after_last_dot_no_slash (r e : jstring) :
  no_slash r = true -> Path.after_last_dot_rev r = Some e -> no_slash e = true.
Proof.
  revert e. induction r as [|c r IH]; intros e Hr H; [discriminate H|].
  simpl in Hr. apply andb_true_iff in Hr. destruct Hr as [Hc Hr].
  simpl in H. destruct (ascii_eqb c Path.dot).
  - injection H as <-. reflexivity.
  - destruct (Path.after_last_dot_rev r) as [e'|]; [|discriminate H].
    injection H as <-. simpl. rewrite Hc. apply IH; [exact Hr | reflexivity].
Qed.

(** [path.extname] never yields a slash. *)
Lemma extname_no_slash (p : jstring) : no_slash (Path.extname p) = true.
Proof.
  unfold Path.extname.
  destruct (Path.after_last_dot_rev (rev (Path.basename p))) as [e|] eqn:E; [|reflexivity].
  match goal with |- context [if ?c then _ else _] => destruct c end; [reflexivity|].
  simpl. rewrite no_slash_rev.
  apply (after_last_dot_no_slash (rev (Path.basename p)) e); [|exact E].
  rewrite no_slash_rev. unfold Path.basename. rewrite no_slash_rev.
  apply take_until_slash_no_slash.
Qed.

Lemma storage_filename_plain (w : world) (part : file_part) :
  plain_segment (storage_filename w part) = true.
Proof.
  unfold plain_segment.
  assert (Hslash : no_slash (storage_filename w part) = true).
  { unfold storage_filename. rewrite !no_slash_app, !of_Z_no_slash, extname_no_slash.
    reflexivity. }
  rewrite Hslash. reflexivity.
Qed.

Lemma join_paths_plain_child (segs : list jstring) (name : jstring) :
  segs <> [] ->
  forallb plain_segment segs = true ->
  plain_segment name = true ->
  Path.join_paths [abs_path segs; name] = abs_path (segs ++ [name]).
Proof.
  intros Hne Hplain Hname.
  destruct (exists_last (l := name)) as [x [c ->]].
  - intro E. subst name. discriminate Hname.
  - apply join_paths_child; assumption.
Qed.

(** X14: wherever the server lives, and whatever name the client gives the
    file, multer stores it directly under the uploads directory, under a
    name without a slash; the scratch file is never an entry of the
    instructor-data directory. *)
Theorem upload_is_stored_under_uploads (segs : list jstring) (w : world) (part : file_part) :
  segs <> [] ->
  forallb plain_segment segs = true ->
  let dirname := abs_path segs in
  scratch_path dirname w part = dirname ++ str "/uploads/" ++ storage_filename w part
  /\ no_slash (storage_filename w part) = true
  /\ entry_under (instructorDataDir dirname) (scratch_path dirname w part) = None.
Proof.
  intros Hne Hplain dirname.
  assert (Hname : plain_segment (storage_filename w part) = true)
    by apply storage_filename_plain.
  assert (Hup : uploadsDir dirname = abs_path (segs ++ [str "uploads"])).
  { unfold uploadsDir, dirname. apply join_paths_plain_child; auto. }
  assert (Hpath : scratch_path dirname w part
                  = dirname ++ str "/uploads/" ++ storage_filename w part).
  { unfold scratch_path. rewrite Hup.
    rewrite join_paths_plain_child.
    - unfold dirname. rewrite <- app_assoc, !abs_path_app.
      unfold abs_path at 2 3. simpl. rewrite !app_nil_r. reflexivity.
    - destruct segs; discriminate.
    - rewrite forallb_app, Hplain. reflexivity.
    - exact Hname. }
  split; [exact Hpath|]. split.
  - apply plain_segment_true in Hname. tauto.
  - rewrite Hpath. unfold entry_under, dirname.
    rewrite (instructorDataDir_abs segs Hne Hplain).
    rewrite abs_path_app, <- app_assoc, startsWith_app. reflexivity.
Qed.

(** upload is stored under uploads, on a concrete input. *)
Lemma upload_is_stored_under_uploads_witness :
  scratch_path Scenario.dir Scenario.fresh
    (mkPart (str "../../etc/passwd.csv") (str "text/csv") 1%Z)
  = str "/srv/Backend/uploads/feedback-1700000000000-123456789.csv"
  /\ entry_under (instructorDataDir Scenario.dir)
       (scratch_path Scenario.dir Scenario.fresh
          (mkPart (str "../../etc/passwd.csv") (str "text/csv") 1%Z)) = None.
Proof.
  destruct (upload_is_stored_under_uploads [str "srv"; str "Backend"] Scenario.fresh
              (mkPart (str "../../etc/passwd.csv") (str "text/csv") 1%Z)
              ltac:(discriminate) eq_refl) as [H1 [_ H3]].
  split; [exact H1 | exact H3].
Defined.

(** ** Login *)

Lemma strict_eq_str_true (v : jsval) (s : jstring) :
  strict_eq_str v s = true <-> v = JStr s.
Proof.
  destruct v; simpl; try (split; [discriminate | intro H; discriminate H]).
  rewrite eqb_true. split; [intros ->; reflexivity | intro H; injection H; auto].
Qed.

Lemma prop_of_object (fields : list (jstring * jsval)) (k : jstring) :
  prop (JObj fields) k = inl (opt_prop (JObj fields) k).
Proof. simpl. destruct (assoc k fields); reflexivity. Qed.

(** X15: a login request is answered 200 exactly when the username and the
    password are the two strings of the admin account; anything else (other
    strings, other types, absent fields) is answered 401.  The world is left
    alone. *)
Theorem login_accepts_only_the_admin (dirname : jstring) (os_run : os_model)
    (JSON_parse : parser_model) (fetch_json : llm_model)
    (fields : list (jstring * jsval)) (w : world) :
  let username := opt_prop (JObj fields) (str "username") in
  let password := opt_prop (JObj fields) (str "password") in
  exists res,
    serve dirname os_run JSON_parse fetch_json (post "/api/login" (JObj fields)) w
    = (Sent res, w)
    /\ (status res = 200 \/ status res = 401)
    /\ (status res = 200 <->
        username = JStr (str "admin@edusense.com") /\ password = JStr (str "demo123")).
Proof.
  intros username password. rewrite serve_login. cbv zeta.
  unfold login_handler, bind, lift. cbn [req_body post].
  rewrite !prop_of_object. fold username password.
  destruct (strict_eq_str username ADMIN_username) eqn:Eu;
    destruct (strict_eq_str password ADMIN_password) eqn:Ep; cbn [andb settle_sync ret];
    eexists; (split; [reflexivity|]); cbn [status send_json];
    (split; [auto|]); split; intro H; try discriminate H; auto.
  - split; apply strict_eq_str_true; assumption.
  - destruct H as [_ H]. apply strict_eq_str_true in H.
    unfold ADMIN_password in Ep. congruence.
  - destruct H as [H _]. apply strict_eq_str_true in H.
    unfold ADMIN_username in Eu. congruence.
  - destruct H as [H _]. apply strict_eq_str_true in H.
    unfold ADMIN_username in Eu. congruence.
Qed.

(** ** The download endpoints *)

Lemma is_space_underscore : is_space underscore = false.
Proof. reflexivity. Qed.

(** X16: the file name both download endpoints derive from an instructor name
    contains no white space: every run of white space has become one
    underscore. *)
Theorem download_name_has_no_space (s : jstring) :
  forallb (fun c => negb (is_space c)) (replace_space_runs (str "_") s) = true.
Proof.
  induction s as [|c s IH]; [reflexivity|].
  cbn [replace_space_runs]. destruct (is_space c) eqn:Ec.
  - destruct s as [|d s]; [reflexivity|].
    destruct (is_space d) eqn:Ed; [exact IH|].
    change (str "_" ++ replace_space_runs (str "_") (d :: s))
      with (underscore :: replace_space_runs (str "_") (d :: s)).
    cbn [forallb]. rewrite is_space_underscore, IH. reflexivity.
  - cbn [forallb]. rewrite Ec, IH. reflexivity.
Qed.

(** X17: the quoting of the feedback text in the CSV loses nothing: two texts
    with the same quoted form are the same text. *)
Theorem double_quotes_injective (a b : jstring) :
  double_quotes a = double_quotes b -> a = b.
Proof.
  unfold double_quotes. revert b.
  induction a as [|x a IH]; intros [|y b] H; simpl in H.
  - reflexivity.
  - destruct (ascii_eqb y (ascii_of_nat 34)); discriminate H.
  - destruct (ascii_eqb x (ascii_of_nat 34)); discriminate H.
  - destruct (ascii_eqb x (ascii_of_nat 34)) eqn:Ex;
      destruct (ascii_eqb y (ascii_of_nat 34)) eqn:Ey; simpl in H.
    + apply ascii_eqb_true in Ex, Ey. subst x y.
      injection H as H. f_equal. apply IH. exact H.
    + injection H as Hy H. apply ascii_eqb_true in Ex. subst x.
      destruct b as [|z b]; simpl in H.
      * discriminate H.
      * exfalso. rewrite <- Hy in Ey. simpl in Ey. discriminate Ey.
    + injection H as Hx H. apply ascii_eqb_true in Ey. subst y.
      exfalso. rewrite Hx in Ex. simpl in Ex. discriminate Ex.
    + injection H as Hxy H. subst y. f_equal. apply IH. exact H.
Qed.

(** double quotes injective, on a concrete input. *)
Lemma double_quotes_injective_witness : str "say hi" = str "say hi".
Proof.
  apply (double_quotes_injective (str "say hi") (str "say hi")). reflexivity.
Defined.

(** X18: download-report whose data is absent, null or an empty object
    answers 200 with the heading alone (instructor "All" by default, the
    stem "feedback" in the file name); nothing is thrown. *)
Theorem report_without_summary (dirname : jstring) (os_run : os_model)
    (JSON_parse : parser_model) (fetch_json : llm_model)
    (data : jsval) (w : world) :
  data = JUndefined \/ data = JNull \/ data = JObj [] ->
  serve dirname os_run JSON_parse fetch_json
    (post "/api/download-report" (JObj [(str "data", data)])) w
  = (Sent (mkResponse 200
             [(str "Content-Type", str "text/plain");
              (str "Content-Disposition", str "attachment; filename=feedback_report.txt")]
             (Text (str "EDUSENSE - FEEDBACK ANALYSIS REPORT" ++ nl
                    ++ rule "=" ++ nl ++ nl
                    ++ str "Instructor: All" ++ nl
                    ++ str "Generated: " ++ clock_locale w ++ nl ++ nl))), w).
Proof.
  intros [ -> | [ -> | -> ] ]; rewrite serve_report; reflexivity.
Qed.

(** report without summary, on a concrete input. *)
Lemma report_without_summary_witness :
  exists text,
    serve Scenario.dir Scenario.idle_os Scenario.no_json Scenario.no_llm
      (post "/api/download-report" (JObj [(str "data", JObj [])])) Scenario.fresh
    = (Sent (mkResponse 200
               [(str "Content-Type", str "text/plain");
                (str "Content-Disposition",
                 str "attachment; filename=feedback_report.txt")]
               (Text text)), Scenario.fresh).
Proof.
  eexists.
  apply (report_without_summary Scenario.dir Scenario.idle_os Scenario.no_json
           Scenario.no_llm (JObj []) Scenario.fresh).
  right. right. reflexivity.
Defined.

(** X19: download-csv without data, or without rows in the data, is answered
    400 "No data provided". *)
Theorem csv_requires_rows (dirname : jstring) (os_run : os_model)
    (JSON_parse : parser_model) (fetch_json : llm_model)
    (fields : list (jstring * jsval)) (w : world) :
  let data := opt_prop (JObj fields) (str "data") in
  truthy data = false \/ truthy (opt_prop data (str "individual_analysis")) = false ->
  serve dirname os_run JSON_parse fetch_json (post "/api/download-csv" (JObj fields)) w
  = (Sent (failure 400 (JStr (str "No data provided"))), w).
Proof.
  intros data H. rewrite serve_csv. cbv zeta.
  unfold csv_handler, bind, lift. cbn [req_body post].
  rewrite !prop_of_object. fold data.
  destruct (truthy data) eqn:Ed; [|reflexivity].
  destruct H as [H|H]; [discriminate H|].
  destruct data as [| | | | | |dfields]; try discriminate Ed;
    try reflexivity.
  rewrite prop_of_object, H. reflexivity.
Qed.

(** csv requires rows, on a concrete input. *)
Lemma csv_requires_rows_witness :
  serve Scenario.dir Scenario.idle_os Scenario.no_json Scenario.no_llm
    (post "/api/download-csv" (JObj [(str "data", JObj [(str "summary", JObj [])])]))
    Scenario.fresh
  = (Sent (failure 400 (JStr (str "No data provided"))), Scenario.fresh).
Proof.
  apply csv_requires_rows. right. reflexivity.
Defined.

(** X20: download-csv is registered after the error middleware, so what it
    throws is not answered with the JSON envelope: with rows but without a
    summary the TypeError ends at Express's own error handler. *)
Theorem csv_errors_bypass_the_error_middleware (dirname : jstring) (os_run : os_model)
    (JSON_parse : parser_model) (fetch_json : llm_model) (w : world) :
  serve dirname os_run JSON_parse fetch_json
    (post "/api/download-csv"
       (JObj [(str "data", JObj [(str "individual_analysis", JArr [])])])) w
  = (DefaultError
       (TypeError (str "Cannot read properties of undefined (reading 'total_responses')")),
     w).
Proof. rewrite serve_csv. reflexivity. Qed.



(** ** The error middleware *)

(** X22: for every thrown object the error middleware answers, with status
    400 or 500 and [success: false]; it never throws and leaves the world
    alone. *)
Theorem error_middleware_answers (fields : list (jstring * jsval)) (req : request)
    (w : world) :
  exists code message,
    error_middleware (JObj fields) req w = (inl (failure code message), w)
    /\ (code = 400 \/ code = 500).
Proof.
  unfold error_middleware, bind, lift, ret. rewrite !prop_of_object.
  destruct (is_MulterError (JObj fields)).
  - destruct (strict_eq_str _ _); eexists; eexists; split; try reflexivity; auto.
  - eexists; eexists; split; try reflexivity; auto.
Qed.

(** ** Requests the analyze handler does not answer *)

(** X23: a filename that is truthy but not a string (a number, true, an
    array, an object) makes [path.join] throw outside any [try]: with a
    runtime cached, the request gets no response and no process is
    spawned. *)
Theorem analyze_non_string_filename (dirname : jstring) (os_run : os_model)
    (JSON_parse : parser_model) (fetch_json : llm_model)
    (body filename : jsval) (py : jstring) (w : world) :
  prop body (str "filename") = inl filename ->
  truthy filename = true ->
  (forall s, filename <> JStr s) ->
  PYTHON_CMD w = Some py ->
  serve dirname os_run JSON_parse fetch_json (post "/api/analyze-instructor" body) w
  = (Rejected (TypeError (str "The path argument must be of type string.")), w).
Proof.
  intros Hname Htruthy Hnot Hpy. rewrite serve_analyze. cbv zeta.
  unfold analyze_handler, bind, lift, get_world. cbn [req_body post].
  rewrite Hname, Htruthy. cbn [negb]. cbv beta iota. rewrite Hpy.
  destruct filename; try reflexivity.
  exfalso. apply (Hnot s). reflexivity.
Qed.

(** analyze non string filename, on a concrete input. *)
Lemma analyze_non_string_filename_witness :
  serve Scenario.dir Scenario.idle_os Scenario.no_json Scenario.no_llm
    (post "/api/analyze-instructor" (JObj [(str "filename", JNum 7)])) Scenario.fresh
  = (Rejected (TypeError (str "The path argument must be of type string.")),
     Scenario.fresh).
Proof.
  apply (analyze_non_string_filename Scenario.dir Scenario.idle_os Scenario.no_json
           Scenario.no_llm _ (JNum 7) (str "python3")); try reflexivity.
  intros s H. discriminate H.
Defined.

(** ** The health probe *)

(** X24: with a runtime command cached, the health endpoint runs it once with
    [--version] and reports [python_available] as true exactly when the probe
    exits with code 0. *)
Theorem health_probes_the_runtime (dirname : jstring) (os_run : os_model)
    (JSON_parse : parser_model) (fetch_json : llm_model)
    (py out err : jstring) (code : option Z) (fs' : list jstring) (w : world) :
  PYTHON_CMD w = Some py ->
  os_run py [str "--version"] (files w) = (Closed code out err, fs') ->
  let answer := serve dirname os_run JSON_parse fetch_json (get "/api/health") w in
  spawned (snd answer) = spawned w ++ [(py, [str "--version"])]
  /\ exists v,
       fst answer = Sent (send_json 200 v)
       /\ (opt_prop v (str "python_available") = JBool true <-> code = Some 0%Z).
Proof.
  intros Hpy Hrun answer. subst answer. rewrite serve_health. cbv zeta.
  unfold health_handler, bind, get_world, spawn. cbv beta iota.
  rewrite Hpy, Hrun. cbn [ret settle fst snd spawned set_files log_spawn].
  split; [reflexivity|]. eexists. split; [reflexivity|].
  cbn [opt_prop assoc].
  change (eqb (str "python_available") (str "status")) with false.
  change (eqb (str "python_available") (str "timestamp")) with false.
  change (eqb (str "python_available") (str "python_available")) with true.
  cbv beta iota. destruct code as [z|]; simpl.
  - split.
    + intro H. injection H as H. apply Z.eqb_eq in H. congruence.
    + intro H. injection H as ->. reflexivity.
  - split; intro H; discriminate H.
Qed.

(** health probes the runtime, on a concrete input. *)
Lemma health_probes_the_runtime_witness :
  let answer := serve Scenario.dir Scenario.idle_os Scenario.no_json Scenario.no_llm
                  (get "/api/health") Scenario.fresh in
  spawned (snd answer) = [(str "python3", [str "--version"])]
  /\ exists v,
       fst answer = Sent (send_json 200 v)
       /\ (opt_prop v (str "python_available") = JBool true <-> Some 0%Z = Some 0%Z).
Proof.
  apply (health_probes_the_runtime Scenario.dir Scenario.idle_os Scenario.no_json
           Scenario.no_llm (str "python3") [] [] (Some 0%Z) (files Scenario.fresh)
           Scenario.fresh); reflexivity.
Defined.
